(** * cdvr_find_pass: which pass triggered the recording of a program

    A shallow embedding of [cdvr_find_pass.py].  JSON values received from
    the Channels DVR server are an inductive type whose objects are finite
    maps; Python exceptions are an error result; HTTP requests and [print]
    calls are recorded as a trace of events. *)

From Stdlib Require Import ZArith String Ascii List Lia Bool.
From stdpp Require Import base option list gmap strings fin_maps.

Set Warnings "-register-all".
#[global] Arguments String.append !s1 s2 : simpl nomatch.
Local Open Scope Z_scope.

(** ** JSON values, as [requests.get(url).json()] returns them

    Numbers are Python ints (the numeric fields of the server's API are
    integers); a JSON object is a Python dict with string keys. *)

Inductive json : Type :=
  | JNull : json
  | JBool (b : bool) : json
  | JNum (n : Z) : json
  | JStr (s : string) : json
  | JArr (l : list json) : json
  | JObj (m : gmap string json) : json.

(** ** Exceptions *)

Inductive exn : Type :=
  | KeyError | TypeError | AttributeError | IndexError
  | ValueError | OverflowError | RequestException.

Inductive result (A : Type) : Type :=
  | Ok (a : A)
  | Raise (e : exn).
Arguments Ok {A} a.
Arguments Raise {A} e.

Definition rbind {A B} (k : A -> result B) (r : result A) : result B :=
  match r with
  | Ok a => k a
  | Raise e => Raise e
  end.

#[global] Instance result_ret : MRet result := fun A a => Ok a.
#[global] Instance result_bind : MBind result := fun A B k r => rbind k r.

(** ** Strings *)

Definition nl : string := String (ascii_of_nat 10) EmptyString.
Definition dquote : string := String (ascii_of_nat 34) EmptyString.

Fixpoint starts_with (sub s : string) : bool :=
  match sub, s with
  | EmptyString, _ => true
  | String a sub', String b s' => if Ascii.eqb a b then starts_with sub' s' else false
  | String _ _, EmptyString => false
  end.

(** [sub in s] on two Python strings *)
Fixpoint contains (sub s : string) : bool :=
  starts_with sub s ||
  match s with
  | EmptyString => false
  | String _ s' => contains sub s'
  end.

(** What "[sub] occurs in [s]" means. *)
Definition occurs_in (sub s : string) : Prop :=
  exists pre post : string, s = pre +:+ sub +:+ post.

(** ** Python's primitive operations on JSON values *)

(** [bool(v)] *)
Definition truthy (v : json) : bool :=
  match v with
  | JNull => false
  | JBool b => b
  | JNum n => negb (n =? 0)
  | JStr s => negb (String.eqb s EmptyString)
  | JArr l => match l with [] => false | _ :: _ => true end
  | JObj m => negb (bool_decide (m = ∅))
  end.

(** [v.get(key, None)] *)
Definition py_get (v : json) (key : string) : result json :=
  match v with
  | JObj m => Ok (default JNull (m !! key))
  | _ => Raise AttributeError
  end.

(** [v[key]] for a string [key] *)
Definition py_item (v : json) (key : string) : result json :=
  match v with
  | JObj m => match m !! key with Some x => Ok x | None => Raise KeyError end
  | _ => Raise TypeError
  end.

(** [v[0]]; the first character of a str is its first byte here, which is
    the character itself for an ASCII string *)
Definition py_item0 (v : json) : result json :=
  match v with
  | JArr l => match l with x :: _ => Ok x | [] => Raise IndexError end
  | JStr s => match s with
              | String c _ => Ok (JStr (String c EmptyString))
              | EmptyString => Raise IndexError
              end
  | JObj _ => Raise KeyError
  | _ => Raise TypeError
  end.

(** [n == v] for a Python int [n]; [True == 1] and [False == 0] hold. *)
Definition py_eq_int (n : Z) (v : json) : bool :=
  match v with
  | JNum k => n =? k
  | JBool b => n =? (if b then 1 else 0)
  | _ => false
  end.

(** [s == v] for a Python str [s] *)
Definition py_eq_str (s : string) (v : json) : bool :=
  match v with
  | JStr t => String.eqb s t
  | _ => false
  end.

(** [needle in v] for a Python str [needle]: substring of a str, element of
    a list, key of a dict. *)
Definition py_in (needle : string) (v : json) : result bool :=
  match v with
  | JStr s => Ok (contains needle s)
  | JArr l => Ok (existsb (py_eq_str needle) l)
  | JObj m => Ok (bool_decide (is_Some (m !! needle)))
  | _ => Raise TypeError
  end.

(** [needle in v.keys()] *)
Definition py_in_keys (needle : string) (v : json) : result bool :=
  match v with
  | JObj m => Ok (bool_decide (is_Some (m !! needle)))
  | _ => Raise AttributeError
  end.

Fixpoint chars (s : string) : list json :=
  match s with
  | EmptyString => []
  | String c s' => JStr (String c EmptyString) :: chars s'
  end.

(** The items [for x in v] goes through.  A dict yields its keys; every
    use below raises the same exception on the first key, so their order
    cannot be observed. *)
Definition py_iter (v : json) : result (list json) :=
  match v with
  | JArr l => Ok l
  | JStr s => Ok (chars s)
  | JObj m => Ok (map (fun kv => JStr (fst kv)) (map_to_list m))
  | _ => Raise TypeError
  end.

(** ** Dictionary keys

    A Python dict built by the program itself ([passes]) is keyed by whatever
    hashable value the server sent: [None], a str, an int or a bool, where
    [True] and [False] are the same keys as [1] and [0].  Lists and dicts are
    unhashable. *)

Inductive pykey : Type :=
  | KNone : pykey
  | KInt (n : Z) : pykey
  | KStr (s : string) : pykey.

#[global] Instance pykey_eq_dec : EqDecision pykey.
Proof. solve_decision. Defined.

#[global] Instance pykey_countable : Countable pykey.
Proof.
  refine (inj_countable'
    (fun k => match k with
              | KNone => inl tt
              | KInt n => inr (inl n)
              | KStr s => inr (inr s)
              end)
    (fun x => match x with
              | inl _ => KNone
              | inr (inl n) => KInt n
              | inr (inr s) => KStr s
              end) _).
  intros []; reflexivity.
Defined.

(** [hash(v)], as far as a dict needs it *)
Definition py_key (v : json) : result pykey :=
  match v with
  | JNull => Ok KNone
  | JBool b => Ok (KInt (if b then 1 else 0))
  | JNum n => Ok (KInt n)
  | JStr s => Ok (KStr s)
  | JArr _ | JObj _ => Raise TypeError
  end.

(** ** Decimal numerals *)

Definition digit_char (d : Z) : ascii := ascii_of_nat (48 + Z.to_nat d).

(** [n] on [k] digits, zero-padded ([%02d], [%04d]) *)
Fixpoint pad (k : nat) (n : Z) : string :=
  match k with
  | O => EmptyString
  | S k' => pad k' (n / 10) +:+ String (digit_char (n mod 10)) EmptyString
  end.

Fixpoint nat_digits (fuel : nat) (n : Z) (acc : string) : string :=
  match fuel with
  | O => acc
  | S fuel' =>
      let acc' := String (digit_char (n mod 10)) acc in
      if n <? 10 then acc' else nat_digits fuel' (n / 10) acc'
  end.

(** [str(n)] for a Python int *)
Definition str_of_int (n : Z) : string :=
  if n <? 0
  then String "-" (nat_digits (S (Z.to_nat (Z.log2 (- n)))) (- n) EmptyString)
  else nat_digits (S (Z.to_nat (Z.log2 n))) n EmptyString.

(** ** The world outside the script *)

Inductive event : Type :=
  | Get (url : string)       (* [requests.get(url)] *)
  | Print (line : string).   (* [print(line)]; [print()] prints the empty line *)

Record environment : Type := {
  (** the global [server_url], set from the command line *)
  server_url : string;
  (** [requests.get(url).json()]: the decoded body, or the exception of a
      failed request or of a body that is not JSON *)
  http_get_json : string -> result json;
  (** [tz.tzlocal()]: offset from UTC in seconds and zone abbreviation in
      effect at a UTC instant (seconds since 0001-01-01T00:00, day 1) *)
  utcoffset : Z -> Z;
  tzname : Z -> string;
  (** [repr] of a list or a dict *)
  py_repr : json -> string
}.

(** A computation that prints and queries the server: its trace, then its
    value or the exception that ended it. *)
Record io (A : Type) : Type := IO { trace : list event; outcome : result A }.
Arguments IO {A} trace outcome.
Arguments trace {A} i.
Arguments outcome {A} i.

Definition io_bind {A B} (k : A -> io B) (m : io A) : io B :=
  match outcome m with
  | Ok a => IO (trace m ++ trace (k a)) (outcome (k a))
  | Raise e => IO (trace m) (Raise e)
  end.

#[global] Instance io_ret : MRet io := fun A a => IO [] (Ok a).
#[global] Instance io_bind_inst : MBind io := fun A B k m => io_bind k m.

Definition lift {A} (r : result A) : io A := IO [] r.
Definition print (line : string) : io unit := IO [Print line] (Ok tt).
Definition requests_get_json (env : environment) (url : string) : io json :=
  IO [Get url] (http_get_json env url).

(** [str(v)], which an f-string applies to the values it interpolates *)
Definition py_str (env : environment) (v : json) : string :=
  match v with
  | JNull => "None"
  | JBool true => "True"
  | JBool false => "False"
  | JNum n => str_of_int n
  | JStr s => s
  | JArr _ | JObj _ => py_repr env v
  end.

(** ** The [datetime] calls of [convert_utc_time_to_local_time]

    Python's proleptic Gregorian calendar: day 1 is 0001-01-01, a Monday. *)

Module datetime.

Definition MINYEAR : Z := 1.
Definition MAXYEAR : Z := 9999.
Definition MAXORDINAL : Z := 3652059.

Definition _is_leap (year : Z) : bool :=
  (year mod 4 =? 0) && (negb (year mod 100 =? 0) || (year mod 400 =? 0)).

Definition _DAYS_IN_MONTH (month : Z) : Z :=
  match month with
  | 1 => 31 | 2 => 28 | 3 => 31 | 4 => 30 | 5 => 31 | 6 => 30
  | 7 => 31 | 8 => 31 | 9 => 30 | 10 => 31 | 11 => 30 | 12 => 31
  | _ => -1
  end.

Definition _DAYS_BEFORE_MONTH (month : Z) : Z :=
  match month with
  | 1 => 0 | 2 => 31 | 3 => 59 | 4 => 90 | 5 => 120 | 6 => 151
  | 7 => 181 | 8 => 212 | 9 => 243 | 10 => 273 | 11 => 304 | 12 => 334
  | _ => -1
  end.

Definition _days_before_year (year : Z) : Z :=
  let y := year - 1 in
  y * 365 + y / 4 - y / 100 + y / 400.

Definition _days_in_month (year month : Z) : Z :=
  if (month =? 2) && _is_leap year then 29 else _DAYS_IN_MONTH month.

Definition _days_before_month (year month : Z) : Z :=
  _DAYS_BEFORE_MONTH month + (if (2 <? month) && _is_leap year then 1 else 0).

Definition _ymd2ord (year month day : Z) : Z :=
  _days_before_year year + _days_before_month year month + day.

Definition _DI400Y : Z := 146097.
Definition _DI100Y : Z := 36524.
Definition _DI4Y : Z := 1461.

Definition _ord2ymd (n : Z) : Z * Z * Z :=
  let n := n - 1 in
  let n400 := n / _DI400Y in
  let n := n mod _DI400Y in
  let year := n400 * 400 + 1 in
  let n100 := n / _DI100Y in
  let n := n mod _DI100Y in
  let n4 := n / _DI4Y in
  let n := n mod _DI4Y in
  let n1 := n / 365 in
  let n := n mod 365 in
  let year := year + n100 * 100 + n4 * 4 + n1 in
  if (n1 =? 4) || (n100 =? 4) then (year - 1, 12, 31)
  else
    let leapyear := (n1 =? 3) && (negb (n4 =? 24) || (n100 =? 3)) in
    let month := Z.shiftr (n + 50) 5 in
    let preceding :=
      _DAYS_BEFORE_MONTH month + (if (2 <? month) && leapyear then 1 else 0) in
    if n <? preceding then
      let month := month - 1 in
      let preceding :=
        preceding
        - (_DAYS_IN_MONTH month + (if (month =? 2) && leapyear then 1 else 0)) in
      (year, month, n - preceding + 1)
    else (year, month, n - preceding + 1).

(** A naive date and time of day; the format read has no seconds, the
    local offset may bring some. *)
Record t : Type := mk {
  year : Z; month : Z; day : Z; hour : Z; minute : Z; second : Z
}.

Definition toordinal (dt : t) : Z := _ymd2ord (year dt) (month dt) (day dt).

(** Monday is 0 *)
Definition weekday (dt : t) : Z := (toordinal dt + 6) mod 7.

(** Seconds from the midnight that starts day 0 *)
Definition instant (dt : t) : Z :=
  ((toordinal dt * 24 + hour dt) * 60 + minute dt) * 60 + second dt.

(** The date and time of day at an instant; beyond the last day of
    [MAXYEAR] or before day 1 the arithmetic overflows. *)
Definition of_instant (i : Z) : result t :=
  let ord := i / 86400 in
  let s := i mod 86400 in
  if (1 <=? ord) && (ord <=? MAXORDINAL) then
    let '(y, m, d) := _ord2ymd ord in
    Ok (mk y m d (s / 3600) (s mod 3600 / 60) (s mod 60))
  else Raise OverflowError.

(** *** [datetime.strptime(s, "%Y-%m-%dT%H:%MZ")]

    [strptime] turns the format into a regular expression, matched
    ignoring case against the whole string:
    [%Y] is [\d\d\d\d], [%m] is [1[0-2]|0[1-9]|[1-9]],
    [%d] is [3[0-1]|[1-2]\d|0[1-9]|[1-9]| [1-9]],
    [%H] is [2[0-3]|[0-1]\d|\d] and [%M] is [[0-5]\d|\d].
    Every field is followed by a literal that is not a digit, so a field
    is the run of digits before it.  The digits read are the ASCII digits:
    this is [strptime] on ASCII strings (Python's [\d] also takes the other
    decimal digits of Unicode). *)

Definition is_digit (c : ascii) : bool :=
  let n := nat_of_ascii c in (48 <=? n)%nat && (n <=? 57)%nat.

Definition digit_val (c : ascii) : Z := Z.of_nat (nat_of_ascii c) - 48.

(** the digits [s] starts with, and what follows them *)
Fixpoint span_digits (s : string) : list Z * string :=
  match s with
  | String c s' =>
      if is_digit c
      then let '(ds, rest) := span_digits s' in (digit_val c :: ds, rest)
      else ([], s)
  | EmptyString => ([], s)
  end.

Definition number (ds : list Z) : Z := fold_left (fun acc d => acc * 10 + d) ds 0.

(** a field of [lo]..[hi] digits with a value in [vmin]..[vmax] *)
Definition field (lo hi : nat) (vmin vmax : Z) (s : string) : option (Z * string) :=
  let '(ds, rest) := span_digits s in
  let v := number ds in
  if (lo <=? length ds)%nat && (length ds <=? hi)%nat && (vmin <=? v) && (v <=? vmax)
  then Some (v, rest) else None.

(** [%d] also takes a blank and one digit *)
Definition day_field (s : string) : option (Z * string) :=
  match s with
  | String " " s' => field 1 1 1 9 s'
  | _ => field 1 2 1 31 s
  end.

(** a literal of the format, upper or lower case *)
Definition literal (upper lower : ascii) (s : string) : option string :=
  match s with
  | String c s' => if Ascii.eqb c upper || Ascii.eqb c lower then Some s' else None
  | EmptyString => None
  end.

Definition parse_fields (s : string) : option (Z * Z * Z * Z * Z) :=
  '(Y, s) ← field 4 4 0 9999 s;
  s ← literal "-" "-" s;
  '(m, s) ← field 1 2 1 12 s;
  s ← literal "-" "-" s;
  '(d, s) ← day_field s;
  s ← literal "T" "t" s;
  '(H, s) ← field 1 2 0 23 s;
  s ← literal ":" ":" s;
  '(M, s) ← field 1 2 0 59 s;
  s ← literal "Z" "z" s;
  match s with
  | EmptyString => Some (Y, m, d, H, M)
  | _ => None
  end.

Definition strptime (s : string) : result t :=
  match parse_fields s with
  | Some (Y, m, d, H, M) =>
      if (MINYEAR <=? Y) && (d <=? _days_in_month Y m)
      then Ok (mk Y m d H M 0)
      else Raise ValueError
  | None => Raise ValueError
  end.

(** *** [strftime('%A, %B %d, %Y %I:%M:%S %p %Z')], in the C locale

    [%Y] is written on four digits; a C library that does not fill the
    year with zeros writes the years from 1000 on in the same way. *)

Definition day_name (wd : Z) : string :=
  match wd with
  | 0 => "Monday" | 1 => "Tuesday" | 2 => "Wednesday" | 3 => "Thursday"
  | 4 => "Friday" | 5 => "Saturday" | _ => "Sunday"
  end.

Definition month_name (m : Z) : string :=
  match m with
  | 1 => "January" | 2 => "February" | 3 => "March" | 4 => "April"
  | 5 => "May" | 6 => "June" | 7 => "July" | 8 => "August"
  | 9 => "September" | 10 => "October" | 11 => "November" | _ => "December"
  end.

Definition hour12 (h : Z) : Z := if h mod 12 =? 0 then 12 else h mod 12.
Definition am_pm (h : Z) : string := if h <? 12 then "AM" else "PM".

Definition strftime (dt : t) (zone : string) : string :=
  day_name (weekday dt) +:+ ", " +:+ month_name (month dt) +:+ " "
  +:+ pad 2 (day dt) +:+ ", " +:+ pad 4 (year dt) +:+ " "
  +:+ pad 2 (hour12 (hour dt)) +:+ ":" +:+ pad 2 (minute dt) +:+ ":"
  +:+ pad 2 (second dt) +:+ " " +:+ am_pm (hour dt) +:+ " " +:+ zone.

End datetime.

(** ** Constants *)

Definition DEFAULT_PORT_NUMBER : string := "8089".
Definition LOOPBACK_ADDRESS : string := "127.0.0.1".
Definition VERSION : string := "2023.08.12.2305".

(** ** class Program *)

Record Program : Type := {
  program : json;
  category : json;
  episode_number : json;
  file_name : json;
  pass_id : json;
  season_number : json;
  title : json
}.

Definition _get_category (program : json) : result json :=
  airing ← py_item program "Airing";
  categories ← py_get airing "Categories";
  if truthy categories then py_item0 categories else Ok (JStr "Program").

Definition _get_file_name (env : environment) (program : json) : io json :=
  file_id ← lift (py_get program "FileID");
  if negb (truthy file_id) then
    file_id ← lift (py_item program "ID");
    has_dash ← lift (py_in "-" file_id);
    if negb has_dash then
      media_info ← requests_get_json env
        (server_url env +:+ "/dvr/files/" +:+ py_str env file_id +:+ "/mediainfo.json");
      lift (format ← py_item media_info "format"; py_item format "filename")
    else mret JNull
  else mret JNull.

(** [Program(program_json)]: the attributes in the order [__init__] sets them *)
Definition Program_init (env : environment) (program_json : json) : io Program :=
  category ← lift (_get_category program_json);
  episode_number ← lift (airing ← py_item program_json "Airing";
                         py_get airing "EpisodeNumber");
  file_name ← _get_file_name env program_json;
  pass_id ← lift (py_get program_json "RuleID");
  season_number ← lift (airing ← py_item program_json "Airing";
                        py_get airing "SeasonNumber");
  title ← lift (airing ← py_item program_json "Airing"; py_item airing "Title");
  mret {| program := program_json; category := category;
          episode_number := episode_number; file_name := file_name;
          pass_id := pass_id; season_number := season_number; title := title |}.

Definition is_imported (self : Program) : result bool :=
  py_in_keys "ImportPath" (program self).

Definition is_manual_recording (self : Program) : result bool :=
  id ← py_item (program self) "ID";
  scheduled_manually ← py_in "-ch" id;
  if negb scheduled_manually then
    job_id ← py_get (program self) "JobID";
    if truthy job_id then py_in "-ch" job_id else Ok scheduled_manually
  else Ok scheduled_manually.

(** ** Functions *)

Definition convert_utc_time_to_local_time (env : environment) (utc_time : json)
  : result string :=
  match utc_time with
  | JStr s =>
      utc_dt ← datetime.strptime s;
      let utc := datetime.instant utc_dt in
      local_dt ← datetime.of_instant (utc + utcoffset env utc);
      Ok (datetime.strftime local_dt (tzname env utc))
  | _ => Raise TypeError
  end.

Definition display_server_url (env : environment) : io unit :=
  _ ← print EmptyString;
  _ ← print ("Using Channels DVR server located at: " +:+ server_url env +:+ ".");
  print EmptyString.

Definition get_library_programs (env : environment) : io (list json) :=
  files ← requests_get_json env (server_url env +:+ "/dvr/files");
  lift (py_iter files).

Fixpoint collect_passes (rules : list json) (passes : gmap pykey json)
  : result (gmap pykey json) :=
  match rules with
  | [] => Ok passes
  | r :: rules' =>
      name ← py_item r "Name";
      id ← py_item r "ID";
      key ← py_key id;
      collect_passes rules' (<[key := name]> passes)
  end.

Definition get_passes (env : environment) : io (gmap pykey json) :=
  rules ← requests_get_json env (server_url env +:+ "/dvr/rules");
  lift (rules ← py_iter rules; collect_passes rules ∅).

Fixpoint not_skipped (recordings : list json) : result (list json) :=
  match recordings with
  | [] => Ok []
  | recording :: recordings' =>
      skipped ← py_item recording "Skipped";
      kept ← not_skipped recordings';
      Ok (if negb (truthy skipped) then recording :: kept else kept)
  end.

Definition get_scheduled_recordings (env : environment) : io (list json) :=
  jobs ← requests_get_json env (server_url env +:+ "/dvr/jobs");
  lift (recordings ← py_iter jobs; not_skipped recordings).

(** [season_number] and [episode_number] are the [int]s of the command
    line, or [None]: [bool(n)] and [n == v] for such an argument. *)
Definition arg_truthy (n : option Z) : bool :=
  match n with
  | Some k => negb (k =? 0)
  | None => false
  end.

Definition arg_eq (n : option Z) (v : json) : bool :=
  match n with
  | Some k => py_eq_int k v
  | None => match v with JNull => true | _ => false end
  end.

(** The value of [is_a_match] when the loop body of [update_program_list]
    reaches [if is_a_match:]. *)
Definition is_a_match (program : json) (title : string)
    (season_number episode_number : option Z) : result bool :=
  airing ← py_item program "Airing";
  program_title ← py_item airing "Title";
  title_found ← py_in title program_title;
  if title_found : bool then
    if arg_truthy season_number then
      program_season_num ← py_get airing "SeasonNumber";
      if truthy program_season_num && arg_eq season_number program_season_num then
        if arg_truthy episode_number then
          program_episode_num ← py_get airing "EpisodeNumber";
          if truthy program_episode_num && arg_eq episode_number program_episode_num
          then Ok true
          else Ok false
        else Ok true
      else Ok false
    else Ok true
  else Ok false.

Fixpoint update_program_list (env : environment)
    (matching_programs : gmap string (list Program)) (key : string)
    (programs : list json) (title : string)
    (season_number episode_number : option Z)
  : io (gmap string (list Program)) :=
  match programs with
  | [] => mret matching_programs
  | program :: programs' =>
      matched ← lift (is_a_match program title season_number episode_number);
      matching_programs ←
        (if matched : bool then
           let current_list := default [] (matching_programs !! key) in
           p ← Program_init env program;
           mret (<[key := current_list ++ [p]]> matching_programs)
         else mret matching_programs);
      update_program_list env matching_programs key programs' title
        season_number episode_number
  end.

Definition get_matching_programs (env : environment) (title : string)
    (season_number episode_number : option Z)
  : io (gmap string (list Program)) :=
  let matching_programs : gmap string (list Program) := ∅ in
  scheduled_recordings ← get_scheduled_recordings env;
  matching_programs ← update_program_list env matching_programs "scheduled"
    scheduled_recordings title season_number episode_number;
  library_programs ← get_library_programs env;
  update_program_list env matching_programs "library"
    library_programs title season_number episode_number.

Definition get_raw_data (p : Program) : result json :=
  airing ← py_get (program p) "Airing";
  if truthy airing then py_get airing "Raw" else Ok JNull.

(** [passes.get(key, None)] *)
Definition passes_get (passes : gmap pykey json) (key : json) : result json :=
  k ← py_key key;
  Ok (default JNull (passes !! k)).

(** The text that one turn of the loop of [display_passes] builds in
    [string_to_print], in two parts: what precedes the test
    [if program.is_imported():], and what the three branches append. *)
Definition heading (env : environment) (p : Program) : string :=
  let string_to_print :=
    " - " +:+ py_str env (category p) +:+ " " +:+ dquote
    +:+ py_str env (title p) +:+ dquote +:+ " " in
  if existsb (fun c => py_eq_str c (category p)) ["Episode"; "Show"; "Series"]%string
  then
    let string_to_print :=
      if truthy (season_number p)
      then string_to_print +:+ "S" +:+ py_str env (season_number p)
      else string_to_print in
    if truthy (episode_number p)
    then string_to_print +:+ "E" +:+ py_str env (episode_number p) +:+ " "
    else string_to_print
  else string_to_print.

Definition quoted_line (env : environment) (v : json) : string :=
  "    " +:+ dquote +:+ py_str env v +:+ dquote +:+ nl.

Definition will_be_recorded (start_time : string) : string :=
  "   will be recorded on " +:+ start_time +:+ nl.

Definition branches (env : environment) (passes : gmap pykey json)
    (p : Program) (raw : json) : result string :=
  imported ← is_imported p;
  if imported : bool then
    Ok ("is an import:" +:+ nl +:+ quoted_line env (file_name p))
  else
    manual ← is_manual_recording p;
    if manual : bool then
      let text := "is a manual recording." +:+ nl in
      if truthy (file_name p) then Ok (text +:+ quoted_line env (file_name p))
      else if truthy raw then
        start_time ← py_item raw "startTime";
        start_time ← convert_utc_time_to_local_time env start_time;
        Ok (text +:+ will_be_recorded start_time)
      else Ok text
    else
      pass_name ← passes_get passes (pass_id p);
      let pass_name := if negb (truthy pass_name)
                       then JStr "nothing found!" else pass_name in
      let text := "triggered by pass: " +:+ dquote +:+ py_str env pass_name
                  +:+ dquote +:+ nl in
      if truthy (file_name p) then Ok (text +:+ quoted_line env (file_name p))
      else if truthy raw then
        start_time ← py_get raw "startTime";
        if truthy start_time then
          start_time ← convert_utc_time_to_local_time env start_time;
          Ok (text +:+ will_be_recorded start_time)
        else Ok text
      else Ok text.

Definition string_to_print (env : environment) (passes : gmap pykey json)
    (p : Program) : result string :=
  raw ← get_raw_data p;
  text ← branches env passes p raw;
  Ok (heading env p +:+ text).

Fixpoint display_passes (env : environment) (passes : gmap pykey json)
    (programs : list Program) : io unit :=
  match programs with
  | [] => mret tt
  | p :: programs' =>
      line ← lift (string_to_print env passes p);
      _ ← print line;
      display_passes env passes programs'
  end.

Definition scheduled_banner : list event :=
  [Print "|----------------------|";
   Print "| Scheduled recordings |";
   Print "|----------------------|";
   Print EmptyString].

Definition library_banner : list event :=
  [Print "|-------------------|";
   Print "| Library programs  |";
   Print "|-------------------|";
   Print EmptyString].

(** [bool(programs.get(key, None))] *)
Definition list_truthy {A} (l : option (list A)) : bool :=
  match l with
  | Some (_ :: _) => true
  | _ => false
  end.

Definition show_passes_for_every_program (env : environment)
    (passes : gmap pykey json) (programs : gmap string (list Program)) : io unit :=
  let scheduled_recordings := programs !! "scheduled" in
  let library_programs := programs !! "library" in
  _ ← (if list_truthy scheduled_recordings then
         _ ← IO scheduled_banner (Ok tt);
         _ ← display_passes env passes (default [] scheduled_recordings);
         print EmptyString
       else mret tt);
  if list_truthy library_programs then
    _ ← IO library_banner (Ok tt);
    _ ← display_passes env passes (default [] library_programs);
    print EmptyString
  else mret tt.

(** ** Main program, after the command line is parsed: [env] holds the
    server's address, [version] is the [--version] flag. *)
Definition main (env : environment) (title : string)
    (season_number episode_number : option Z) (version : bool) : io unit :=
  if version then print VERSION
  else
    _ ← display_server_url env;
    _ ← print ("Looking for matches..." +:+ nl);
    passes ← get_passes env;
    programs ← get_matching_programs env title season_number episode_number;
    _ ← (if bool_decide (programs = ∅)
         then _ ← print "no matches found."; print EmptyString
         else mret tt);
    show_passes_for_every_program env passes programs.

(** ** The matching rule, as the specification words it *)

(** The record carries, in [field], a number equal to [n] (as Python
    compares the two). *)
Definition carries (airing : gmap string json) (field : string) (n : Z) : Prop :=
  exists v, airing !! field = Some v /\ py_eq_int n v = true.

(** A program matches if its title contains the given title; if a season
    number is given, the program also has an equal season number; if an
    episode number is also given, an equal episode number. *)
Definition matching_rule (airing : gmap string json) (program_title title : string)
    (season_number episode_number : option Z) : Prop :=
  occurs_in title program_title /\
  match season_number with
  | None => True
  | Some season =>
      carries airing "SeasonNumber" season /\
      match episode_number with
      | None => True
      | Some episode => carries airing "EpisodeNumber" episode
      end
  end.

(** A number of the command line that takes part in the matching: one that
    was given and is not zero. *)
Definition requested (n : option Z) : option Z :=
  match n with
  | Some 0 => None
  | _ => n
  end.

(** A program record whose airing has a title, as the server sends them *)
Definition titled (program : json) (airing : gmap string json) (t : string) : Prop :=
  exists m, program = JObj m /\ m !! "Airing" = Some (JObj airing)
            /\ airing !! "Title" = Some (JStr t).

(** Records used in the examples *)
Definition friends_airing : gmap string json := {[ "Title" := JStr "Friends" ]}.
Definition friends_job_fields : gmap string json :=
  <["ID" := JStr "12-ch3"]> {[ "Airing" := JObj friends_airing ]}.
Definition friends_job : json := JObj friends_job_fields.

(** A server that cannot be reached, in the local zone UTC *)
Definition offline : environment :=
  {| server_url := "http://127.0.0.1:8089";
     http_get_json := fun _ => Raise RequestException;
     utcoffset := fun _ => 0;
     tzname := fun _ => "UTC";
     py_repr := fun _ => EmptyString |}.

(** The claim that a given season number must always be carried by the
    record, zero included *)
Definition every_given_number_is_required : Prop :=
  forall program airing t title sn en,
    titled program airing t ->
    (is_a_match program title sn en = Ok true
     <-> matching_rule airing t title sn en).

(** ** File names *)

Definition mediainfo_url (env : environment) (file_id : string) : string :=
  server_url env +:+ "/dvr/files/" +:+ file_id +:+ "/mediainfo.json".

(** [_get_file_name] queries the server *)
Definition looks_up (env : environment) (program : json) : Prop :=
  exists url, In (Get url) (trace (_get_file_name env program)).

(** The claim that the file name is looked up exactly when the record
    refers to no file of its own *)
Definition looked_up_unless_present : Prop :=
  forall env m id,
    m !! "ID" = Some (JStr id) ->
    (looks_up env (JObj m) <-> truthy (default JNull (m !! "FileID")) = false).

(** A recorded file of the library and a running job *)
Definition library_file_fields : gmap string json :=
  <["ID" := JStr "77"]> (<["RuleID" := JStr "r2"]>
    {[ "Airing" := JObj (<["Title" := JStr "Best Friends"]>
                          (<["SeasonNumber" := JNum 2]>
                            {[ "Categories" := JArr [JStr "Episode"] ]})) ]}).
Definition library_file : json := JObj library_file_fields.

Definition running_job_fields : gmap string json :=
  <["ID" := JStr "r1-123"]> (<["FileID" := JStr "78"]>
    (<["JobID" := JStr "1687618800-ch6030"]>
      {[ "Airing" := JObj friends_airing ]})).
Definition running_job : json := JObj running_job_fields.

(** ** Collections *)

Definition rules_url (env : environment) : string := server_url env +:+ "/dvr/rules".
Definition jobs_url (env : environment) : string := server_url env +:+ "/dvr/jobs".
Definition files_url (env : environment) : string := server_url env +:+ "/dvr/files".

(** The records of a collection that the filter lets through *)
Definition matches (title : string) (season_number episode_number : option Z)
    (program : json) : bool :=
  match is_a_match program title season_number episode_number with
  | Ok true => true
  | _ => false
  end.

(** A job of the server's answer, with its boolean "Skipped" field *)
Definition has_skipped_flag (job : json) : Prop :=
  exists m (b : bool), job = JObj m /\ m !! "Skipped" = Some (JBool b).

(** The job's "Skipped" field is false. *)
Definition skipped_is_false (job : json) : bool :=
  match job with
  | JObj m => match m !! "Skipped" with
              | Some (JBool false) => true
              | _ => false
              end
  | _ => false
  end.

(** The programs of a section of the matching result *)
Definition section_of (programs : gmap string (list Program)) (key : string)
  : list Program := default [] (programs !! key).

(** What the script prints first *)
Definition preamble (env : environment) : list event :=
  [Print EmptyString;
   Print ("Using Channels DVR server located at: " +:+ server_url env +:+ ".");
   Print EmptyString;
   Print ("Looking for matches..." +:+ nl)].

(** A server with one rule, one job that is skipped and one that is not,
    and one recorded file *)
Definition skipped_job_fields : gmap string json :=
  <["ID" := JStr "r1-456"]> (<["RuleID" := JStr "r1"]> (<["Skipped" := JBool true]>
    {[ "Airing" := JObj {[ "Title" := JStr "Friends" ]} ]})).

Definition kept_job_fields : gmap string json :=
  <["ID" := JStr "r1-123"]> (<["RuleID" := JStr "r1"]> (<["Skipped" := JBool false]>
    {[ "Airing" := JObj (<["Title" := JStr "Friends"]>
         {[ "Raw" := JObj {[ "startTime" := JStr "2023-06-24T15:00Z" ]} ]}) ]})).

Definition home_server (offset : Z) (zone : string) : environment :=
  {| server_url := "http://127.0.0.1:8089";
     http_get_json := fun url =>
       if String.eqb url "http://127.0.0.1:8089/dvr/rules" then
         Ok (JArr [JObj (<["ID" := JStr "r1"]> {[ "Name" := JStr "Friends pass" ]})])
       else if String.eqb url "http://127.0.0.1:8089/dvr/jobs" then
         Ok (JArr [JObj skipped_job_fields; JObj kept_job_fields])
       else if String.eqb url "http://127.0.0.1:8089/dvr/files" then
         Ok (JArr [library_file])
       else if String.eqb url "http://127.0.0.1:8089/dvr/files/77/mediainfo.json" then
         Ok (JObj {[ "format" := JObj {[ "filename" := JStr "/dvr/TV/f.mpg" ]} ]})
       else Raise RequestException;
     utcoffset := fun _ => offset;
     tzname := fun _ => zone;
     py_repr := fun _ => EmptyString |}.

(** ** The report *)

Definition scheduled_title : event := Print "| Scheduled recordings |".
Definition library_title : event := Print "| Library programs  |".

(** At least one program matched in a collection. *)
Definition matched_some (programs : gmap string (list Program)) (key : string)
  : Prop :=
  exists p l, programs !! key = Some (p :: l).

(** A matching result with a scheduled and a library program *)
Definition friends_program : Program :=
  {| program := JObj kept_job_fields; category := JStr "Program";
     episode_number := JNull; file_name := JNull; pass_id := JStr "r1";
     season_number := JNull; title := JStr "Friends" |}.

Definition best_friends_program : Program :=
  {| program := library_file; category := JStr "Episode";
     episode_number := JNull; file_name := JStr "/dvr/TV/f.mpg";
     pass_id := JStr "r2"; season_number := JNum 2;
     title := JStr "Best Friends" |}.

Definition both_sections : gmap string (list Program) :=
  <["scheduled" := [friends_program]]> {[ "library" := [best_friends_program] ]}.

Definition friends_passes : gmap pykey json := {[ KStr "r1" := JStr "Friends pass" ]}.

(** ** Classification of a matched program *)

Inductive classification : Type := Imported | Manual | RuleTriggered.

(** Imported if the record has the import marker; else manual if it has the
    manual-scheduling marker; else triggered by a rule. *)
Definition classify (p : Program) : result classification :=
  imported ← is_imported p;
  if imported : bool then Ok Imported
  else
    manual ← is_manual_recording p;
    if manual : bool then Ok Manual else Ok RuleTriggered.

(** What the report says of a program of each class, after its heading *)
Definition marker (c : classification) : string :=
  match c with
  | Imported => "is an import:"
  | Manual => "is a manual recording."
  | RuleTriggered => "triggered by pass: "
  end.

Definition rendered_as (env : environment) (p : Program) (line : string)
    (c : classification) : Prop :=
  exists rest, line = heading env p +:+ marker c +:+ rest.

(** The line that names the pass *)
Definition pass_line (pass_name : string) : string :=
  "triggered by pass: " +:+ dquote +:+ pass_name +:+ dquote +:+ nl.

(** The placeholder for an identifier absent from the mapping, otherwise the
    name the mapping associates with it *)
Definition name_or_placeholder (env : environment) (passes : gmap pykey json)
    (k : pykey) : string :=
  match passes !! k with
  | None => "nothing found!"
  | Some name => py_str env name
  end.

(** The same, the placeholder standing also for an empty name (or any other
    name Python holds false) *)
Definition pass_name_shown (env : environment) (passes : gmap pykey json)
    (k : pykey) : string :=
  match passes !! k with
  | None => "nothing found!"
  | Some name => if truthy name then py_str env name else "nothing found!"
  end.

(** The claim that a pass name is replaced by the placeholder only when the
    identifier is absent from the mapping *)
Definition placeholder_only_when_absent : Prop :=
  forall env passes p k line,
    classify p = Ok RuleTriggered ->
    py_key (pass_id p) = Ok k ->
    string_to_print env passes p = Ok line ->
    exists rest,
      line = heading env p +:+ pass_line (name_or_placeholder env passes k) +:+ rest.

(** An imported file that also has a rule and a manual marker *)
Definition imported_fields : gmap string json :=
  <["ID" := JStr "80"]> (<["ImportPath" := JStr "/imports/friends.mkv"]>
    (<["RuleID" := JStr "r1"]> (<["JobID" := JStr "1687618800-ch6030"]>
      {[ "Airing" := JObj friends_airing ]}))).

Definition imported_program : Program :=
  {| program := JObj imported_fields; category := JStr "Program";
     episode_number := JNull; file_name := JStr "/imports/friends.mkv";
     pass_id := JStr "r1"; season_number := JNull; title := JStr "Friends" |}.

(** A mapping with a pass that has no name *)
Definition unnamed_pass : gmap pykey json := {[ KStr "r2" := JStr EmptyString ]}.

(** ** Dates *)

(** A date of the calendar with a time of day *)
Definition valid (dt : datetime.t) : Prop :=
  1 <= datetime.year dt <= 9999 /\ 1 <= datetime.month dt <= 12 /\
  1 <= datetime.day dt
       <= datetime._days_in_month (datetime.year dt) (datetime.month dt) /\
  0 <= datetime.hour dt < 24 /\ 0 <= datetime.minute dt < 60 /\
  0 <= datetime.second dt < 60.

(** A timestamp in the format "%Y-%m-%dT%H:%MZ" *)
Definition utc_format (Y m d H M : Z) : string :=
  pad 4 Y +:+ "-" +:+ pad 2 m +:+ "-" +:+ pad 2 d +:+ "T"
  +:+ pad 2 H +:+ ":" +:+ pad 2 M +:+ "Z".

(** The day of the week of a Gregorian date by the tabular rule (Sakamoto's):
    0 is Sunday. *)
Definition month_key (m : Z) : Z :=
  match m with
  | 1 => 0 | 2 => 3 | 3 => 2 | 4 => 5 | 5 => 0 | 6 => 3
  | 7 => 5 | 8 => 1 | 9 => 4 | 10 => 6 | 11 => 2 | _ => 4
  end.

Definition day_of_week (y m d : Z) : Z :=
  let y := if m <? 3 then y - 1 else y in
  (y + y / 4 - y / 100 + y / 400 + month_key m + d) mod 7.

Definition weekday_name (y m d : Z) : string :=
  match day_of_week y m d with
  | 0 => "Sunday" | 1 => "Monday" | 2 => "Tuesday" | 3 => "Wednesday"
  | 4 => "Thursday" | 5 => "Friday" | _ => "Saturday"
  end.

(** "weekday, month day, year hour:minute:second AM/PM zone" *)
Definition long_format (dt : datetime.t) (zone : string) : string :=
  weekday_name (datetime.year dt) (datetime.month dt) (datetime.day dt)
  +:+ ", " +:+ datetime.month_name (datetime.month dt)
  +:+ " " +:+ pad 2 (datetime.day dt) +:+ ", " +:+ pad 4 (datetime.year dt)
  +:+ " " +:+ pad 2 (datetime.hour12 (datetime.hour dt))
  +:+ ":" +:+ pad 2 (datetime.minute dt) +:+ ":" +:+ pad 2 (datetime.second dt)
  +:+ " " +:+ datetime.am_pm (datetime.hour dt) +:+ " " +:+ zone.

(** The digits of [n] on [k] places *)
Fixpoint digits (k : nat) (n : Z) : list Z :=
  match k with
  | O => []
  | S k' => digits k' (n / 10) ++ [n mod 10]
  end.

(** Month and day of the [n]-th day (from 0) of a year, as [_ord2ymd]
    finds them *)
Definition month_day (n : Z) (leapyear : bool) : Z * Z :=
  let month := Z.shiftr (n + 50) 5 in
  let preceding :=
    datetime._DAYS_BEFORE_MONTH month + (if (2 <? month) && leapyear then 1 else 0) in
  if n <? preceding then
    let month := month - 1 in
    let preceding :=
      preceding
      - (datetime._DAYS_IN_MONTH month + (if (month =? 2) && leapyear then 1 else 0)) in
    (month, n - preceding + 1)
  else (month, n - preceding + 1).

Definition month_day_ok (leapyear : bool) (n : Z) : bool :=
  let '(m, d) := month_day n leapyear in
  (1 <=? m) && (m <=? 12) && (1 <=? d)
  && (d <=? datetime._DAYS_IN_MONTH m + (if (m =? 2) && leapyear then 1 else 0))
  && (datetime._DAYS_BEFORE_MONTH m + (if (2 <? m) && leapyear then 1 else 0) + d
      =? n + 1).

(** The claim that 2023-06-24T15:00Z is shown as a Saturday of June
    wherever the script runs *)
Definition saturday_everywhere : Prop :=
  forall env, exists rest,
    convert_utc_time_to_local_time env (JStr "2023-06-24T15:00Z")
    = Ok ("Saturday, June " +:+ rest).


(** ** Further definitions: rules, construction, traces *)

(** What [get_passes] stores for a rule: its name under its identifier, when
    the rule is an object with a "Name" and an "ID" that can be a key *)
Definition rule_entry (r : json) : option (pykey * json) :=
  match r with
  | JObj m =>
      match m !! "Name", m !! "ID" with
      | Some name, Some id =>
          match py_key id with
          | Ok k => Some (k, name)
          | Raise _ => None
          end
      | _, _ => None
      end
  | _ => None
  end.

(** The name of the last rule of the list filed under [k], or [found] *)
Fixpoint last_name (k : pykey) (rules : list json) (found : option json)
  : option json :=
  match rules with
  | [] => found
  | r :: rules' =>
      last_name k rules'
        (match rule_entry r with
         | Some (k', name) => if decide (k' = k) then Some name else found
         | None => found
         end)
  end.

(** The "Categories" of an airing are absent, null or a list. *)
Definition categories_listed (airing : gmap string json) : Prop :=
  match airing !! "Categories" with
  | None | Some JNull | Some (JArr _) => True
  | Some _ => False
  end.

(** The first category of the airing, "Program" when it has none *)
Definition first_category (airing : gmap string json) : json :=
  match airing !! "Categories" with
  | Some (JArr (c :: _)) => c
  | _ => JStr "Program"
  end.

(** A server whose rules name the same identifier twice *)
Definition renamed_rules : list json :=
  [JObj (<["ID" := JStr "r1"]> {[ "Name" := JStr "Friends" ]});
   JObj (<["ID" := JStr "r2"]> {[ "Name" := JStr "News" ]});
   JObj (<["ID" := JStr "r1"]> {[ "Name" := JStr "Friends (new)" ]})].

Definition rules_server (rules : json) : environment :=
  {| server_url := "http://127.0.0.1:8089";
     http_get_json := fun url =>
       if String.eqb url "http://127.0.0.1:8089/dvr/rules" then Ok rules
       else Raise RequestException;
     utcoffset := fun _ => 0;
     tzname := fun _ => "UTC";
     py_repr := fun _ => EmptyString |}.

Definition library_airing : gmap string json :=
  <["Title" := JStr "Best Friends"]>
    (<["SeasonNumber" := JNum 2]> {[ "Categories" := JArr [JStr "Episode"] ]}).

(** ** Traces *)

Definition is_get (e : event) : Prop :=
  match e with Get _ => True | Print _ => False end.

Definition is_print (e : event) : Prop :=
  match e with Print _ => True | Get _ => False end.

(** The lines of the programs that are rendered before the first one whose
    rendering raises *)
Fixpoint rendered (env : environment) (passes : gmap pykey json)
    (programs : list Program) : list string :=
  match programs with
  | [] => []
  | p :: programs' =>
      match string_to_print env passes p with
      | Ok line => line :: rendered env passes programs'
      | Raise _ => []
      end
  end.

(** A line of the report: empty, of a banner, or of a program *)
Definition report_line (e : event) : Prop :=
  exists s, e = Print s /\
            (s = EmptyString \/ (exists r, s = String "|" r)
             \/ exists r, s = " - " +:+ r).

Definition no_matches_line : event := Print "no matches found.".

(** ** Jobs *)

(** The value of a job's "Skipped" field *)
Definition skipped_value (job : json) : option json :=
  match job with
  | JObj m => m !! "Skipped"
  | _ => None
  end.

Definition is_object (v : json) : Prop :=
  match v with JObj _ => True | _ => False end.

(** The job is kept: Python holds its "Skipped" false. *)
Definition kept (job : json) : bool :=
  match skipped_value job with
  | Some v => negb (truthy v)
  | None => false
  end.

(** A server that answers the jobs request with [jobs] *)
Definition jobs_server (jobs : json) : environment :=
  {| server_url := "http://127.0.0.1:8089";
     http_get_json := fun url =>
       if String.eqb url "http://127.0.0.1:8089/dvr/jobs" then Ok jobs
       else Raise RequestException;
     utcoffset := fun _ => 0;
     tzname := fun _ => "UTC";
     py_repr := fun _ => EmptyString |}.

(** A job marked with null, one without the field *)
Definition unmarked_job : json :=
  JObj (<["Skipped" := JNull]> friends_job_fields).

(** ** Records and programs of the further examples *)

(** A record without an airing *)
Definition bare_record : json := JObj {[ "ID" := JStr "81" ]}.

(** A manual recording and a rule-triggered job whose guide data has no
    start time *)
Definition untimed_airing : gmap string json :=
  <["Title" := JStr "Friends"]> {[ "Raw" := JObj {[ "endTime" := JStr "2023-06-24T15:30Z" ]} ]}.

Definition untimed_manual : Program :=
  {| program := JObj (<["ID" := JStr "12-ch3"]> {[ "Airing" := JObj untimed_airing ]});
     category := JStr "Program"; episode_number := JNull; file_name := JNull;
     pass_id := JNull; season_number := JNull; title := JStr "Friends" |}.

Definition untimed_rule : Program :=
  {| program := JObj (<["ID" := JStr "r1-123"]> (<["RuleID" := JStr "r1"]>
                        {[ "Airing" := JObj untimed_airing ]}));
     category := JStr "Program"; episode_number := JNull; file_name := JNull;
     pass_id := JStr "r1"; season_number := JNull; title := JStr "Friends" |}.

(** ** Dates *)

(** A date of the calendar *)
Definition valid_date (y m d : Z) : Prop :=
  1 <= y <= 9999 /\ 1 <= m <= 12 /\ 1 <= d <= datetime._days_in_month y m.

(** The time of day [s] seconds after midnight, on the day of [dt] *)
Definition at_second (dt : datetime.t) (s : Z) : datetime.t :=
  datetime.mk (datetime.year dt) (datetime.month dt) (datetime.day dt)
    (s / 3600) (s mod 3600 / 60) (s mod 60).

(** An episode with its numbers *)
Definition episode_airing : gmap string json :=
  <["Title" := JStr "Friends"]> (<["SeasonNumber" := JNum 2]>
    (<["EpisodeNumber" := JNum 5]> {[ "Categories" := JArr [JStr "Episode"] ]})).

Definition episode_job_fields : gmap string json :=
  <["ID" := JStr "r1-777"]> {[ "Airing" := JObj episode_airing ]}.

(** ** The markers of a record, as the specification words them *)

(** The record carries the "ImportPath" key. *)
Definition import_marker (m : gmap string json) : Prop :=
  is_Some (m !! "ImportPath").

(** The identifier of the record, or its job identifier, contains "-ch". *)
Definition manual_marker (m : gmap string json) : Prop :=
  (exists id, m !! "ID" = Some (JStr id) /\ occurs_in "-ch" id) \/
  (exists job, m !! "JobID" = Some (JStr job) /\ occurs_in "-ch" job).

(** Imported if the record has the import marker; otherwise manual if it
    has the manual-scheduling marker; only otherwise triggered by a rule. *)
Inductive classified (m : gmap string json) : classification -> Prop :=
  | classified_imported :
      import_marker m -> classified m Imported
  | classified_manual :
      ~ import_marker m -> manual_marker m -> classified m Manual
  | classified_rule :
      ~ import_marker m -> ~ manual_marker m -> classified m RuleTriggered.

(** A manual recording that also has a rule of the mapping *)
Definition manual_fields : gmap string json :=
  <["ID" := JStr "12-ch3"]> (<["RuleID" := JStr "r1"]>
    {[ "Airing" := JObj friends_airing ]}).

Definition manual_program : Program :=
  {| program := JObj manual_fields; category := JStr "Program";
     episode_number := JNull; file_name := JNull; pass_id := JStr "r1";
     season_number := JNull; title := JStr "Friends" |}.

(** ** ASCII strings *)


(** A matching result to which the library file is appended *)
Definition earlier_matches : gmap string (list Program) :=
  <["scheduled" := [friends_program]]> {[ "library" := [imported_program] ]}.

Definition later_matches : gmap string (list Program) :=
  <["scheduled" := [friends_program]]>
    {[ "library" := [imported_program; best_friends_program] ]}.

(** * Properties *)

(** ** Substrings *)

Lemma starts_with_spec (sub s : string) :
  starts_with sub s = true <-> exists post, s = sub +:+ post.
Proof.
  revert s; induction sub as [|a sub IH]; intros s; simpl.
  - split; [intros _; exists s; reflexivity | reflexivity].
  - destruct s as [|b s]; simpl.
    + split; [discriminate | intros [post H]; discriminate].
    + destruct (Ascii.eqb_spec a b) as [->|Hne].
      * rewrite IH. split; intros [post H]; exists post; simpl in *; congruence.
      * split; [discriminate | intros [post H]; simpl in H; congruence].
Qed.

Lemma contains_spec (sub s : string) :
  contains sub s = true <-> occurs_in sub s.
Proof.
  unfold occurs_in. induction s as [|c s IH]; simpl.
  - rewrite orb_false_r, starts_with_spec. split.
    + intros [post H]. exists EmptyString, post. exact H.
    + intros [pre [post H]]. destruct pre; [|discriminate].
      exists post. exact H.
  - rewrite orb_true_iff, starts_with_spec, IH. split.
    + intros [[post H]|[pre [post H]]].
      * exists EmptyString, post. exact H.
      * exists (String c pre), post. simpl. congruence.
    + intros [pre [post H]]. destruct pre as [|c' pre]; simpl in H.
      * left. exists post. exact H.
      * right. exists pre, post. congruence.
Qed.

Lemma contains_false (sub s : string) :
  contains sub s = false <-> ~ occurs_in sub s.
Proof.
  rewrite <- contains_spec. destruct (contains sub s); split; congruence.
Qed.

(** ** The two monads *)

Ltac unfold_monads :=
  unfold mbind, mret, io_bind_inst, io_ret, result_bind, result_ret,
         io_bind, rbind, lift, print, requests_get_json in *.

Ltac py_simpl := unfold_monads; simpl in *.

Lemma io_eq {A} (x y : io A) :
  trace x = trace y -> outcome x = outcome y -> x = y.
Proof. destruct x, y; simpl; intros -> ->; reflexivity. Qed.

Lemma io_bind_lift {A B} (r : result A) (k : A -> io B) :
  (lift r ≫= k) = match r with Ok a => k a | Raise e => IO [] (Raise e) end.
Proof. destruct r; py_simpl; [destruct (k a)|]; reflexivity. Qed.

Lemma io_bind_ret_r {A} (m : io A) : (m ≫= mret) = m.
Proof.
  destruct m as [t [a|e]]; py_simpl; [rewrite app_nil_r|]; reflexivity.
Qed.

(** ** Matching *)

Lemma field_check (airing : gmap string json) (field : string) (k : Z) :
  k <> 0 ->
  truthy (default JNull (airing !! field))
  && py_eq_int k (default JNull (airing !! field)) = true
  <-> carries airing field k.
Proof.
  intros Hk. unfold carries. rewrite andb_true_iff. split.
  - intros [Ht He]. destruct (airing !! field) as [v|]; simpl in *.
    + exists v. split; [reflexivity | exact He].
    + discriminate.
  - intros [v [Hv He]]. rewrite Hv. simpl. split; [|exact He].
    destruct v as [|b|n|s|l|m]; simpl in *; try discriminate.
    + destruct b; [reflexivity|]. apply Z.eqb_eq in He. contradiction.
    + apply Z.eqb_eq in He. subst n.
      apply negb_true_iff, Z.eqb_neq. exact Hk.
Qed.

Lemma requested_some (n : option Z) (k : Z) :
  requested n = Some k -> n = Some k /\ k <> 0 /\ arg_truthy n = true.
Proof.
  destruct n as [[| |]|]; simpl; intros H; inversion H; subst;
    repeat split; discriminate.
Qed.

Lemma requested_none (n : option Z) :
  requested n = None -> arg_truthy n = false.
Proof. destruct n as [[| |]|]; simpl; intros H; try discriminate; reflexivity. Qed.

(** The decision of the filter on a titled record, as a boolean *)
Lemma is_a_match_titled program airing t title sn en :
  titled program airing t ->
  is_a_match program title sn en =
  Ok (contains title t &&
      (if arg_truthy sn then
         let s := default JNull (airing !! "SeasonNumber") in
         truthy s && arg_eq sn s &&
         (if arg_truthy en then
            let e := default JNull (airing !! "EpisodeNumber") in
            truthy e && arg_eq en e
          else true)
       else true)).
Proof.
  intros (m & -> & Ha & Ht). unfold is_a_match. py_simpl.
  rewrite Ha. simpl. rewrite Ht. simpl.
  destruct (contains title t); simpl; [|reflexivity].
  destruct (arg_truthy sn); simpl; [|reflexivity].
  destruct (truthy (default JNull (airing !! "SeasonNumber"))); simpl; [|reflexivity].
  destruct (arg_eq sn (default JNull (airing !! "SeasonNumber"))); simpl; [|reflexivity].
  destruct (arg_truthy en); simpl; [|reflexivity].
  destruct (truthy (default JNull (airing !! "EpisodeNumber"))); simpl; [|reflexivity].
  destruct (arg_eq en (default JNull (airing !! "EpisodeNumber"))); reflexivity.
Qed.

Lemma is_a_match_rule program airing t title sn en :
  titled program airing t ->
  exists b, is_a_match program title sn en = Ok b /\
            (b = true <-> matching_rule airing t title (requested sn) (requested en)).
Proof.
  intros Ht. rewrite (is_a_match_titled _ _ _ _ _ _ Ht).
  eexists; split; [reflexivity|].
  unfold matching_rule. rewrite andb_true_iff, contains_spec.
  apply and_iff_compat_l.
  destruct (requested sn) as [s|] eqn:Hs.
  - apply requested_some in Hs as (-> & Hs0 & ->). cbv zeta.
    rewrite andb_true_iff. simpl arg_eq.
    rewrite (field_check _ _ _ Hs0). apply and_iff_compat_l.
    destruct (requested en) as [e|] eqn:He.
    + apply requested_some in He as (-> & He0 & ->). simpl arg_eq.
      apply field_check. exact He0.
    + rewrite (requested_none _ He). tauto.
  - rewrite (requested_none _ Hs). tauto.
Qed.

Lemma io_bind_assoc {A B C} (m : io A) (f : A -> io B) (g : B -> io C) :
  ((m ≫= f) ≫= g) = (m ≫= fun a => f a ≫= g).
Proof.
  destruct m as [t [a|e]]; py_simpl; [|reflexivity].
  destruct (f a) as [t' [b|e]]; simpl; [|reflexivity].
  rewrite app_assoc. reflexivity.
Qed.

Lemma io_bind_ext {A B} (m : io A) (f g : A -> io B) :
  (forall a, f a = g a) -> (m ≫= f) = (m ≫= g).
Proof. destruct m as [t [a|e]]; py_simpl; intros H; [rewrite H|]; reflexivity. Qed.

Lemma io_ret_bind {A B} (a : A) (k : A -> io B) : (mret a ≫= k) = k a.
Proof. py_simpl. destruct (k a); reflexivity. Qed.

Lemma update_program_list_cons env m key p ps title sn en :
  update_program_list env m key (p :: ps) title sn en =
  match is_a_match p title sn en with
  | Ok true =>
      P ← Program_init env p;
      update_program_list env (<[key := default [] (m !! key) ++ [P]]> m)
        key ps title sn en
  | Ok false => update_program_list env m key ps title sn en
  | Raise e => IO [] (Raise e)
  end.
Proof.
  cbn [update_program_list]. rewrite io_bind_lift.
  destruct (is_a_match p title sn en) as [[|]|e]; [| |reflexivity].
  - rewrite io_bind_assoc. f_equal.
  - rewrite io_ret_bind. reflexivity.
Qed.

(** C1, amended: on a record whose airing has a title, the filter decides
    without raising, and includes the record if and only if the title
    given occurs in the record's title and, when a season number other than
    zero is given, the record carries an equal season number and, when an
    episode number other than zero is given too, an equal episode number.
    A record that lacks a required number is excluded; a record that is
    included is appended, as a Program, to the list under the key. *)
Theorem matching_filter_includes env (m : gmap string (list Program)) key
    program airing t title sn en :
  titled program airing t ->
  exists b : bool,
    is_a_match program title sn en = Ok b /\
    (b = true <-> matching_rule airing t title (requested sn) (requested en)) /\
    update_program_list env m key [program] title sn en =
      (if b
       then P ← Program_init env program;
            mret (<[key := default [] (m !! key) ++ [P]]> m)
       else mret m).
Proof.
  intros Ht.
  destruct (is_a_match_rule program airing t title sn en Ht) as (b & Hb & Hrule).
  exists b. split; [exact Hb|]. split; [exact Hrule|].
  rewrite update_program_list_cons, Hb. destruct b; reflexivity.
Qed.

Lemma matching_filter_includes_witness :
  titled friends_job friends_airing "Friends" /\
  exists b : bool,
    is_a_match friends_job "Friend" (Some 0) (Some 4) = Ok b /\
    (b = true <->
     matching_rule friends_airing "Friends" "Friend"
       (requested (Some 0)) (requested (Some 4))) /\
    update_program_list offline ∅ "scheduled" [friends_job] "Friend"
      (Some 0) (Some 4) =
      (if b
       then P ← Program_init offline friends_job;
            mret (<["scheduled" := default [] ((∅ : gmap string (list Program))
                                               !! "scheduled") ++ [P]]> ∅)
       else mret ∅).
Proof.
  assert (H : titled friends_job friends_airing "Friends").
  { exists friends_job_fields. repeat split; reflexivity. }
  split; [exact H|].
  exact (matching_filter_includes offline ∅ "scheduled" friends_job
           friends_airing "Friends" "Friend" (Some 0) (Some 4) H).
Defined.

(** C1 as stated fails when the season number given is zero: a record
    without a season number is included. *)
Lemma season_zero_is_not_required : ~ every_given_number_is_required.
Proof.
  intros H.
  assert (Ht : titled friends_job friends_airing "Friends").
  { exists friends_job_fields. repeat split; reflexivity. }
  destruct (H friends_job friends_airing "Friends" "Friends" (Some 0) None Ht)
    as [Hinc _].
  destruct (Hinc eq_refl) as (_ & (v & Hv & _) & _).
  vm_compute in Hv. discriminate.
Qed.

(** ** Season and episode zero *)

Lemma is_a_match_ignores program title sn en sn' en' :
  requested sn = requested sn' ->
  (requested sn <> None -> requested en = requested en') ->
  is_a_match program title sn en = is_a_match program title sn' en'.
Proof.
  intros Hs He. unfold is_a_match. py_simpl.
  destruct (py_item program "Airing") as [airing|]; [|reflexivity].
  destruct (py_item airing "Title") as [t|]; [|reflexivity].
  destruct (py_in title t) as [[|]|]; try reflexivity.
  destruct (requested sn) as [s|] eqn:E.
  - apply requested_some in E as (-> & Hs0 & ->).
    symmetry in Hs. apply requested_some in Hs as (-> & _ & ->).
    destruct (py_get airing "SeasonNumber") as [v|]; [|reflexivity].
    destruct (truthy v && arg_eq (Some s) v); [|reflexivity].
    assert (He' : requested en = requested en') by (apply He; discriminate).
    destruct (requested en) as [e|] eqn:E'.
    + apply requested_some in E' as (-> & _ & ->).
      symmetry in He'. apply requested_some in He' as (-> & _ & ->).
      reflexivity.
    + symmetry in He'.
      rewrite (requested_none _ E'), (requested_none _ He'). reflexivity.
  - symmetry in Hs.
    rewrite (requested_none _ E), (requested_none _ Hs). reflexivity.
Qed.

Lemma update_program_list_ignores env key title sn en sn' en' programs :
  requested sn = requested sn' ->
  (requested sn <> None -> requested en = requested en') ->
  forall m,
    update_program_list env m key programs title sn en
    = update_program_list env m key programs title sn' en'.
Proof.
  intros Hs He. induction programs as [|p ps IH]; intros m; [reflexivity|].
  rewrite !update_program_list_cons.
  rewrite (is_a_match_ignores p title sn en sn' en' Hs He).
  destruct (is_a_match p title sn' en') as [[|]|e]; [|apply IH|reflexivity].
  destruct (Program_init env p) as [tr [P|e]]; py_simpl; [|reflexivity].
  rewrite IH. reflexivity.
Qed.

(** C10: a season number 0 gives the same matches as no season number
    (whatever the episode numbers), and an episode number 0 the same
    matches as no episode number, on every collection and for the whole
    run of [get_matching_programs]. *)
Theorem zero_numbers_are_absent env title :
  (forall m key programs en en',
      update_program_list env m key programs title (Some 0) en
      = update_program_list env m key programs title None en') /\
  (forall m key programs sn,
      update_program_list env m key programs title sn (Some 0)
      = update_program_list env m key programs title sn None) /\
  (forall en en',
      get_matching_programs env title (Some 0) en
      = get_matching_programs env title None en') /\
  (forall sn,
      get_matching_programs env title sn (Some 0)
      = get_matching_programs env title sn None).
Proof.
  assert (U0 : forall m key programs en en',
             update_program_list env m key programs title (Some 0) en
             = update_program_list env m key programs title None en').
  { intros. apply update_program_list_ignores; [reflexivity|].
    intros H. exfalso. apply H. reflexivity. }
  assert (U1 : forall m key programs sn,
             update_program_list env m key programs title sn (Some 0)
             = update_program_list env m key programs title sn None).
  { intros. apply update_program_list_ignores; reflexivity. }
  assert (G : forall sn en sn' en',
             (forall m key programs,
                 update_program_list env m key programs title sn en
                 = update_program_list env m key programs title sn' en') ->
             get_matching_programs env title sn en
             = get_matching_programs env title sn' en').
  { intros sn en sn' en' H. unfold get_matching_programs.
    apply io_bind_ext; intros scheduled. rewrite H.
    apply io_bind_ext; intros m. apply io_bind_ext; intros library. apply H. }
  split; [exact U0|]. split; [exact U1|]. split.
  - intros en en'. apply G. intros. apply U0.
  - intros sn. apply G. intros. apply U1.
Qed.

(** ** Manual recordings *)

(** C7: for a record whose ID is a string and whose JobID, when present,
    is a string or null, the manual-scheduling flag is computed without an
    exception and is true if and only if "-ch" occurs in the ID or, the ID
    not containing it, in the JobID. *)
Theorem manual_flag (p : Program) (m : gmap string json) (id : string) :
  program p = JObj m ->
  m !! "ID" = Some (JStr id) ->
  (forall v, m !! "JobID" = Some v -> v = JNull \/ exists job, v = JStr job) ->
  exists b : bool,
    is_manual_recording p = Ok b /\
    (b = true <->
     occurs_in "-ch" id \/
     (~ occurs_in "-ch" id /\
      exists job, m !! "JobID" = Some (JStr job) /\ occurs_in "-ch" job)).
Proof.
  intros Hp Hid Hjob. unfold is_manual_recording. rewrite Hp. py_simpl.
  rewrite Hid. simpl.
  destruct (contains "-ch" id) eqn:Hc; simpl.
  - exists true. split; [reflexivity|]. split; [|reflexivity].
    intros _. left. apply contains_spec. exact Hc.
  - apply contains_false in Hc.
    destruct (m !! "JobID") as [v|] eqn:Hv; simpl.
    + destruct (Hjob v eq_refl) as [->|[job ->]]; simpl.
      * exists false. split; [reflexivity|].
        split; [discriminate|]. intros [H|(_ & job & H & _)]; [tauto|discriminate].
      * destruct job as [|c job]; simpl.
        -- exists false. split; [reflexivity|]. split; [discriminate|].
           intros [H|(_ & job & H & Ho)]; [tauto|].
           inversion H; subst job. apply contains_spec in Ho. discriminate.
        -- eexists. split; [reflexivity|].
           rewrite (contains_spec "-ch" (String c job)). split.
           ++ intros Ho. right. split; [exact Hc|].
              exists (String c job). split; [reflexivity | exact Ho].
           ++ intros [H|(_ & job' & H & Ho)]; [tauto|].
              inversion H; subst job'. exact Ho.
    + exists false. split; [reflexivity|].
      split; [discriminate|]. intros [H|(_ & job & H & _)]; [tauto|discriminate].
Qed.

Lemma manual_flag_witness :
  exists b : bool,
    is_manual_recording
      {| program := running_job; category := JStr "Program";
         episode_number := JNull; file_name := JNull; pass_id := JNull;
         season_number := JNull; title := JStr "Friends" |} = Ok b /\
    (b = true <->
     occurs_in "-ch" "r1-123" \/
     (~ occurs_in "-ch" "r1-123" /\
      exists job,
        running_job_fields !! "JobID" = Some (JStr job) /\ occurs_in "-ch" job)).
Proof.
  apply (manual_flag _ running_job_fields "r1-123").
  - reflexivity.
  - reflexivity.
  - intros v H. vm_compute in H. inversion H. right. eexists. reflexivity.
Defined.

(** ** File names *)

(** C5, amended: for a record whose ID is a string, constructing a Program
    queries the per-file media info exactly when the record has no FileID
    (or an empty one) and its ID contains no "-"; the file name is then
    format.filename of the answer.  In every other case no query is made
    and the file name is None. *)
Theorem file_name_lookup env (m : gmap string json) (id : string) :
  m !! "ID" = Some (JStr id) ->
  (looks_up env (JObj m) <->
   truthy (default JNull (m !! "FileID")) = false /\ ~ occurs_in "-" id) /\
  _get_file_name env (JObj m) =
    (if negb (truthy (default JNull (m !! "FileID"))) && negb (contains "-" id)
     then IO [Get (mediainfo_url env id)]
             (media_info ← http_get_json env (mediainfo_url env id);
              format ← py_item media_info "format";
              py_item format "filename")
     else IO [] (Ok JNull)).
Proof.
  intros Hid.
  assert (E : _get_file_name env (JObj m) =
    (if negb (truthy (default JNull (m !! "FileID"))) && negb (contains "-" id)
     then IO [Get (mediainfo_url env id)]
             (media_info ← http_get_json env (mediainfo_url env id);
              format ← py_item media_info "format";
              py_item format "filename")
     else IO [] (Ok JNull))).
  { unfold _get_file_name, mediainfo_url. py_simpl.
    destruct (truthy (default JNull (m !! "FileID"))); simpl; [reflexivity|].
    rewrite Hid. simpl.
    destruct (contains "-" id); simpl; [reflexivity|].
    destruct (http_get_json env _) as [media_info|e]; simpl; [|reflexivity].
    destruct (py_item media_info "format") as [format|e]; simpl; reflexivity. }
  split; [|exact E].
  unfold looks_up. rewrite E. rewrite <- contains_false.
  destruct (truthy (default JNull (m !! "FileID"))); simpl.
  - split; [intros [url []] | intros [H _]; discriminate].
  - destruct (contains "-" id); simpl.
    + split; [intros [url []] | intros [_ H]; discriminate].
    + split; [intros _; split; reflexivity|].
      intros _. eexists. left. reflexivity.
Qed.

Lemma file_name_lookup_witness :
  (looks_up offline library_file <->
   truthy (default JNull (library_file_fields !! "FileID")) = false
   /\ ~ occurs_in "-" "77") /\
  _get_file_name offline library_file =
    (if negb (truthy (default JNull (library_file_fields !! "FileID")))
        && negb (contains "-" "77")
     then IO [Get (mediainfo_url offline "77")]
             (media_info ← http_get_json offline (mediainfo_url offline "77");
              format ← py_item media_info "format";
              py_item format "filename")
     else IO [] (Ok JNull)).
Proof.
  apply (file_name_lookup offline library_file_fields "77").
  reflexivity.
Defined.

(** C5 as stated fails on a record that refers to no file at all and has
    "-" in its ID (a scheduled job): no query is made. *)
Lemma job_without_file_is_not_looked_up : ~ looked_up_unless_present.
Proof.
  intros H.
  destruct (H offline friends_job_fields "12-ch3" eq_refl) as [_ Hback].
  destruct (Hback eq_refl) as [url Hin].
  vm_compute in Hin. exact Hin.
Qed.

(** ** Collections *)

Lemma io_bind_outcome {A B} (m : io A) (k : A -> io B) (b : B) :
  outcome (m ≫= k) = Ok b ->
  exists a, outcome m = Ok a /\ outcome (k a) = Ok b.
Proof.
  destruct m as [t [a|e]]; py_simpl; [|discriminate].
  intros H. exists a. split; [reflexivity | exact H].
Qed.

Lemma Program_init_program env (program_json : json) (p : Program) :
  outcome (Program_init env program_json) = Ok p -> program p = program_json.
Proof.
  unfold Program_init. intros H.
  repeat (apply io_bind_outcome in H as (? & _ & H)).
  py_simpl. inversion H. reflexivity.
Qed.

Lemma update_program_list_outcome env key title sn en programs :
  forall m m' : gmap string (list Program),
    outcome (update_program_list env m key programs title sn en) = Ok m' ->
    exists added,
      map program added = List.filter (matches title sn en) programs /\
      m' = match added with
           | [] => m
           | _ :: _ => <[key := default [] (m !! key) ++ added]> m
           end.
Proof.
  induction programs as [|p ps IH]; intros m m' H.
  - py_simpl. inversion H. exists []. split; reflexivity.
  - rewrite update_program_list_cons in H. simpl List.filter. unfold matches at 1.
    destruct (is_a_match p title sn en) as [[|]|e] eqn:Hm.
    + apply io_bind_outcome in H as (P & HP & H).
      apply IH in H as (added & Hmap & Hm').
      exists (P :: added). split.
      * simpl. rewrite (Program_init_program _ _ _ HP), Hmap. reflexivity.
      * rewrite Hm'. destruct added as [|P' added]; [reflexivity|].
        rewrite lookup_insert_eq. simpl. rewrite insert_insert_eq.
        rewrite <- app_assoc. reflexivity.
    + apply IH in H. exact H.
    + simpl in H. discriminate.
Qed.

Lemma update_program_list_none env key title sn en programs
    (m : gmap string (list Program)) :
  Forall (fun p => is_a_match p title sn en = Ok false) programs ->
  update_program_list env m key programs title sn en = IO [] (Ok m).
Proof.
  induction 1 as [|p ps Hp _ IH]; [reflexivity|].
  rewrite update_program_list_cons, Hp. exact IH.
Qed.

Lemma get_passes_trace env : trace (get_passes env) = [Get (rules_url env)].
Proof.
  unfold get_passes, rules_url. py_simpl.
  destruct (http_get_json env _); reflexivity.
Qed.

Lemma get_scheduled_recordings_trace env :
  trace (get_scheduled_recordings env) = [Get (jobs_url env)].
Proof.
  unfold get_scheduled_recordings, jobs_url. py_simpl.
  destruct (http_get_json env _); reflexivity.
Qed.

Lemma get_library_programs_trace env :
  trace (get_library_programs env) = [Get (files_url env)].
Proof.
  unfold get_library_programs, files_url. py_simpl.
  destruct (http_get_json env _); reflexivity.
Qed.

Lemma not_skipped_flags (jobs : list json) :
  Forall has_skipped_flag jobs ->
  not_skipped jobs = Ok (List.filter skipped_is_false jobs).
Proof.
  induction 1 as [|job jobs (m & b & -> & Hb) _ IH]; [reflexivity|].
  simpl. py_simpl. rewrite Hb, IH. destruct b; reflexivity.
Qed.

(** C9: when the server answers the jobs request with a list of jobs that
    have a boolean "Skipped" field, the scheduled recordings are exactly the
    jobs whose "Skipped" is false, in their order; and every program of the
    "scheduled" section of a matching result is such a job. *)
Theorem skipped_jobs_are_dropped env (jobs : list json) :
  http_get_json env (jobs_url env) = Ok (JArr jobs) ->
  Forall has_skipped_flag jobs ->
  get_scheduled_recordings env
  = IO [Get (jobs_url env)] (Ok (List.filter skipped_is_false jobs)) /\
  forall title sn en programs p,
    outcome (get_matching_programs env title sn en) = Ok programs ->
    In p (section_of programs "scheduled") ->
    In (program p) jobs /\ skipped_is_false (program p) = true.
Proof.
  intros Hget Hflags.
  assert (E : get_scheduled_recordings env
              = IO [Get (jobs_url env)] (Ok (List.filter skipped_is_false jobs))).
  { apply io_eq; [apply get_scheduled_recordings_trace|].
    unfold get_scheduled_recordings. fold (jobs_url env). py_simpl.
    rewrite Hget. simpl. apply not_skipped_flags. exact Hflags. }
  split; [exact E|].
  intros title sn en programs p H Hin.
  unfold get_matching_programs in H. rewrite E in H.
  apply io_bind_outcome in H as (scheduled & Hs & H).
  simpl in Hs. inversion Hs; subst scheduled; clear Hs.
  apply io_bind_outcome in H as (m1 & H1 & H).
  apply io_bind_outcome in H as (library & _ & H).
  apply update_program_list_outcome in H1 as (added & Hmap & ->).
  apply update_program_list_outcome in H as (added' & _ & ->).
  assert (Hp : In p added).
  { unfold section_of in Hin.
    destruct added' as [|? ?];
      [|rewrite lookup_insert_ne in Hin by discriminate];
      (destruct added as [|? ?];
       [rewrite lookup_empty in Hin; destruct Hin
       |rewrite lookup_insert_eq, lookup_empty in Hin; exact Hin]). }
  assert (Hj : In (program p) (map program added)) by (apply in_map; exact Hp).
  rewrite Hmap in Hj. apply filter_In in Hj as [Hj _].
  apply filter_In in Hj. exact Hj.
Qed.

Lemma skipped_jobs_are_dropped_witness :
  get_scheduled_recordings (home_server 0 "UTC")
  = IO [Get (jobs_url (home_server 0 "UTC"))]
       (Ok (List.filter skipped_is_false
              [JObj skipped_job_fields; JObj kept_job_fields])) /\
  forall title sn en programs p,
    outcome (get_matching_programs (home_server 0 "UTC") title sn en) = Ok programs ->
    In p (section_of programs "scheduled") ->
    In (program p) [JObj skipped_job_fields; JObj kept_job_fields]
    /\ skipped_is_false (program p) = true.
Proof.
  apply (skipped_jobs_are_dropped (home_server 0 "UTC")
           [JObj skipped_job_fields; JObj kept_job_fields]).
  - reflexivity.
  - repeat constructor.
    + exists skipped_job_fields, true. split; reflexivity.
    + exists kept_job_fields, false. split; reflexivity.
Defined.

(** ** No matches *)

Lemma get_matching_programs_none env title sn en scheduled library :
  outcome (get_scheduled_recordings env) = Ok scheduled ->
  outcome (get_library_programs env) = Ok library ->
  Forall (fun p => is_a_match p title sn en = Ok false) (scheduled ++ library) ->
  get_matching_programs env title sn en
  = IO [Get (jobs_url env); Get (files_url env)] (Ok ∅).
Proof.
  intros Hs Hl Hall. apply Forall_app in Hall as [Hsched Hlib].
  assert (Es : get_scheduled_recordings env = IO [Get (jobs_url env)] (Ok scheduled))
    by (apply io_eq; [apply get_scheduled_recordings_trace | exact Hs]).
  assert (El : get_library_programs env = IO [Get (files_url env)] (Ok library))
    by (apply io_eq; [apply get_library_programs_trace | exact Hl]).
  unfold get_matching_programs. rewrite Es, El.
  unfold mbind, io_bind_inst, io_bind. simpl.
  rewrite !(update_program_list_none _ _ _ _ _ _ _ Hsched). simpl.
  rewrite !(update_program_list_none _ _ _ _ _ _ _ Hlib). reflexivity.
Qed.

(** C4: when the three requests are answered and no program of the
    scheduled recordings or of the library matches, the matching step
    returns the empty dictionary, and the script prints "no matches found."
    and an empty line after its preamble, prints no section, and ends
    without an exception. *)
Theorem no_match_is_reported env title sn en passes scheduled library :
  outcome (get_passes env) = Ok passes ->
  outcome (get_scheduled_recordings env) = Ok scheduled ->
  outcome (get_library_programs env) = Ok library ->
  Forall (fun p => is_a_match p title sn en = Ok false) (scheduled ++ library) ->
  outcome (get_matching_programs env title sn en) = Ok ∅ /\
  main env title sn en false
  = IO (preamble env
        ++ [Get (rules_url env); Get (jobs_url env); Get (files_url env)]
        ++ [Print "no matches found."; Print EmptyString])
       (Ok tt).
Proof.
  intros Hp Hs Hl Hall.
  pose proof (get_matching_programs_none env title sn en _ _ Hs Hl Hall) as Em.
  assert (Ep : get_passes env = IO [Get (rules_url env)] (Ok passes))
    by (apply io_eq; [apply get_passes_trace | exact Hp]).
  split; [rewrite Em; reflexivity|].
  unfold main. rewrite Ep, Em.
  unfold show_passes_for_every_program, display_server_url, preamble.
  unfold mbind, io_bind_inst, io_bind, print. simpl.
  rewrite !lookup_empty. reflexivity.
Qed.

Lemma no_match_is_reported_witness :
  outcome (get_matching_programs (home_server 0 "UTC") "Seinfeld" None None) = Ok ∅ /\
  main (home_server 0 "UTC") "Seinfeld" None None false
  = IO (preamble (home_server 0 "UTC")
        ++ [Get (rules_url (home_server 0 "UTC"));
            Get (jobs_url (home_server 0 "UTC"));
            Get (files_url (home_server 0 "UTC"))]
        ++ [Print "no matches found."; Print EmptyString])
       (Ok tt).
Proof.
  apply (no_match_is_reported (home_server 0 "UTC") "Seinfeld" None None
           {[ KStr "r1" := JStr "Friends pass" ]}
           [JObj kept_job_fields] [library_file]).
  - reflexivity.
  - reflexivity.
  - reflexivity.
  - repeat constructor.
Defined.

(** ** Sections of the report *)

Lemma heading_dash env p : exists rest, heading env p = " - " +:+ rest.
Proof.
  unfold heading.
  destruct (existsb _ _); [|eexists; reflexivity].
  destruct (truthy (season_number p)), (truthy (episode_number p));
    simpl; eexists; reflexivity.
Qed.

Lemma string_to_print_dash env passes p line :
  string_to_print env passes p = Ok line -> exists rest, line = " - " +:+ rest.
Proof.
  unfold string_to_print. py_simpl.
  destruct (get_raw_data p) as [raw|]; [|discriminate].
  destruct (branches env passes p raw) as [text|]; [|discriminate].
  intros H. inversion H.
  destruct (heading_dash env p) as [rest ->]. eexists. reflexivity.
Qed.

Lemma display_passes_cons env passes p l :
  display_passes env passes (p :: l) =
  match string_to_print env passes p with
  | Ok line => IO (Print line :: trace (display_passes env passes l))
                  (outcome (display_passes env passes l))
  | Raise e => IO [] (Raise e)
  end.
Proof.
  cbn [display_passes]. rewrite io_bind_lift.
  destruct (string_to_print env passes p); reflexivity.
Qed.

Lemma display_passes_items env passes l e :
  In e (trace (display_passes env passes l)) ->
  exists rest, e = Print (" - " +:+ rest).
Proof.
  induction l as [|p l IH]; [intros []|].
  rewrite display_passes_cons.
  destruct (string_to_print env passes p) as [line|] eqn:Hl; [|intros []].
  simpl. intros [<-|H]; [|exact (IH H)].
  destruct (string_to_print_dash _ _ _ _ Hl) as [rest ->]. eexists. reflexivity.
Qed.

Lemma title_not_displayed env passes l rest :
  ~ In (Print (String "|" rest)) (trace (display_passes env passes l)).
Proof.
  intros H. apply display_passes_items in H as [rest' H]. discriminate.
Qed.

Lemma show_passes_trace env passes (programs : gmap string (list Program)) :
  outcome (display_passes env passes (section_of programs "scheduled")) = Ok tt ->
  trace (show_passes_for_every_program env passes programs) =
  (if list_truthy (programs !! "scheduled")
   then scheduled_banner
        ++ trace (display_passes env passes (section_of programs "scheduled"))
        ++ [Print EmptyString]
   else [])
  ++ (if list_truthy (programs !! "library")
      then library_banner
           ++ trace (display_passes env passes (section_of programs "library"))
           ++ match outcome (display_passes env passes
                               (section_of programs "library")) with
              | Ok _ => [Print EmptyString]
              | Raise _ => []
              end
      else []).
Proof.
  unfold section_of, show_passes_for_every_program. intros Hs.
  unfold mbind, io_bind_inst, io_bind, mret, io_ret, print.
  destruct (list_truthy (programs !! "scheduled")); simpl.
  - rewrite Hs. simpl.
    destruct (list_truthy (programs !! "library")); simpl.
    + destruct (outcome (display_passes env passes (default [] (programs !! "library"))));
        simpl; rewrite ?app_nil_r, <- ?app_assoc; reflexivity.
    + rewrite ?app_nil_r. reflexivity.
  - destruct (list_truthy (programs !! "library")); simpl; [|reflexivity].
    destruct (outcome (display_passes env passes (default [] (programs !! "library"))));
      simpl; rewrite ?app_nil_r; reflexivity.
Qed.

Lemma list_truthy_matched (programs : gmap string (list Program)) key :
  list_truthy (programs !! key) = true <-> matched_some programs key.
Proof.
  unfold matched_some. destruct (programs !! key) as [[|p l]|]; simpl; split;
    try discriminate; try (intros (? & ? & ?); discriminate).
  - intros _. eexists _, _. reflexivity.
  - reflexivity.
Qed.

(** C6: when the scheduled section is rendered without an exception, the
    report shows the title "Scheduled recordings" if and only if at least
    one scheduled program matched, and the title "Library programs" if and
    only if at least one library program matched. *)
Theorem report_sections env passes (programs : gmap string (list Program)) :
  outcome (display_passes env passes (section_of programs "scheduled")) = Ok tt ->
  (In scheduled_title (trace (show_passes_for_every_program env passes programs))
   <-> matched_some programs "scheduled") /\
  (In library_title (trace (show_passes_for_every_program env passes programs))
   <-> matched_some programs "library").
Proof.
  intros Hs. rewrite (show_passes_trace _ _ _ Hs).
  rewrite <- !list_truthy_matched.
  unfold scheduled_title, library_title.
  assert (Hlib : forall l,
    ~ In (Print "| Scheduled recordings |")
         (trace (display_passes env passes l))) by (intros; apply title_not_displayed).
  assert (Hsch : forall l,
    ~ In (Print "| Library programs  |")
         (trace (display_passes env passes l))) by (intros; apply title_not_displayed).
  assert (Hend : forall (r : result unit) s,
    ~ In (Print (String "|" s))
         match r with Ok _ => [Print EmptyString] | Raise _ => [] end).
  { intros [|] s H; simpl in H; [destruct H as [H|[]]; discriminate | exact H]. }
  destruct (list_truthy (programs !! "scheduled"));
    destruct (list_truthy (programs !! "library"));
    rewrite ?in_app_iff; simpl; split; split; try discriminate; try tauto;
    intros H; exfalso;
    repeat match type of H with
      | _ \/ _ => destruct H as [H|H]
      end;
    first [discriminate H | exact H | exact (Hlib _ H) | exact (Hsch _ H)
          | exact (Hend _ _ H) ].
Qed.

Lemma report_sections_witness :
  (In scheduled_title
      (trace (show_passes_for_every_program (home_server 0 "UTC") friends_passes
                both_sections))
   <-> matched_some both_sections "scheduled") /\
  (In library_title
      (trace (show_passes_for_every_program (home_server 0 "UTC") friends_passes
                both_sections))
   <-> matched_some both_sections "library").
Proof.
  apply (report_sections (home_server 0 "UTC") friends_passes both_sections).
  vm_compute. reflexivity.
Defined.

(** ** Classification *)

Lemma append_inv_head (s a b : string) : s +:+ a = s +:+ b -> a = b.
Proof. induction s as [|c s IH]; simpl; intros H; [exact H|]. apply IH. congruence. Qed.

Lemma append_assoc (a b c : string) : (a +:+ b) +:+ c = a +:+ (b +:+ c).
Proof. induction a as [|x a IH]; simpl; [reflexivity|]. rewrite IH. reflexivity. Qed.

Lemma marker_inj c c' rest rest' :
  marker c +:+ rest = marker c' +:+ rest' -> c = c'.
Proof. destruct c, c'; simpl; intros H; try reflexivity; discriminate. Qed.

Lemma matched_raw (p : Program) title sn en (b : bool) :
  is_a_match (program p) title sn en = Ok b ->
  exists raw, get_raw_data p = Ok raw.
Proof.
  unfold is_a_match, get_raw_data. py_simpl.
  destruct (program p) as [| | | | |m]; simpl; try discriminate.
  destruct (m !! "Airing") as [airing|]; simpl; [|discriminate].
  destruct airing as [| | | | |a]; simpl; try discriminate.
  intros _. destruct (negb (bool_decide (a = ∅))); eexists; reflexivity.
Qed.

(** The text of the three branches starts with the marker of the class. *)
Lemma branches_marker env passes p raw text :
  branches env passes p raw = Ok text ->
  exists c rest, classify p = Ok c /\ text = marker c +:+ rest.
Proof.
  unfold branches, classify. py_simpl.
  destruct (is_imported p) as [[|]|]; simpl; try discriminate.
  - intros H. inversion H. exists Imported. eexists. split; reflexivity.
  - destruct (is_manual_recording p) as [[|]|]; simpl; try discriminate.
    + intros H. exists Manual.
      destruct (truthy (file_name p)).
      { inversion H. eexists. split; [reflexivity|]. simpl. reflexivity. }
      destruct (truthy raw).
      2:{ inversion H. eexists. split; [reflexivity|]. simpl. reflexivity. }
      destruct (py_item raw "startTime") as [st|]; simpl in H; [|discriminate].
      destruct (convert_utc_time_to_local_time env st); simpl in H; [|discriminate].
      inversion H. eexists. split; [reflexivity|]. simpl. reflexivity.
    + intros H. exists RuleTriggered.
      destruct (passes_get passes (pass_id p)) as [name|]; simpl in H; [|discriminate].
      destruct (truthy (file_name p)).
      { inversion H. eexists. split; [reflexivity|]. simpl. reflexivity. }
      destruct (truthy raw).
      2:{ inversion H. eexists. split; [reflexivity|]. simpl. reflexivity. }
      destruct (py_get raw "startTime") as [st|]; simpl in H; [|discriminate].
      destruct (truthy st).
      2:{ inversion H. eexists. split; [reflexivity|]. simpl. reflexivity. }
      destruct (convert_utc_time_to_local_time env st); simpl in H; [|discriminate].
      inversion H. eexists. split; [reflexivity|]. simpl. reflexivity.
Qed.

Lemma string_to_print_text env passes p line :
  string_to_print env passes p = Ok line ->
  exists raw text,
    get_raw_data p = Ok raw /\ branches env passes p raw = Ok text
    /\ line = heading env p +:+ text.
Proof.
  unfold string_to_print. py_simpl.
  destruct (get_raw_data p) as [raw|]; [|discriminate].
  destruct (branches env passes p raw) as [text|] eqn:Hb; [|discriminate].
  intros H. inversion H. exists raw, text. repeat split; assumption.
Qed.

(** The mapping is not consulted for an imported or a manual program. *)
Lemma branches_without_passes env passes passes' p raw c :
  classify p = Ok c -> c <> RuleTriggered ->
  branches env passes' p raw = branches env passes p raw.
Proof.
  unfold branches, classify. py_simpl.
  destruct (is_imported p) as [[|]|]; simpl; try reflexivity.
  destruct (is_manual_recording p) as [[|]|]; simpl; try reflexivity.
  intros H Hc. inversion H. congruence.
Qed.

Lemma is_manual_recording_marker (p : Program) (m : gmap string json) (id : string) :
  program p = JObj m ->
  m !! "ID" = Some (JStr id) ->
  (forall v, m !! "JobID" = Some v -> v = JNull \/ exists job, v = JStr job) ->
  exists b : bool, is_manual_recording p = Ok b /\ (b = true <-> manual_marker m).
Proof.
  intros Hp Hid Hjob.
  assert (Hleft : forall id', m !! "ID" = Some (JStr id') -> id' = id)
    by (intros id' H; congruence).
  unfold is_manual_recording, manual_marker. rewrite Hp. py_simpl.
  rewrite Hid. simpl.
  destruct (contains "-ch" id) eqn:Hc; simpl.
  - exists true. split; [reflexivity|]. split; [|reflexivity].
    intros _. left. exists id. split; [reflexivity|]. apply contains_spec. exact Hc.
  - apply contains_false in Hc.
    assert (Hno : ~ exists id', Some (JStr id) = Some (JStr id') /\ occurs_in "-ch" id').
    { intros (id' & E & Ho). inversion E; subst id'. exact (Hc Ho). }
    destruct (m !! "JobID") as [v|] eqn:Hv; simpl.
    + destruct (Hjob v eq_refl) as [->|[job ->]]; simpl.
      * exists false. split; [reflexivity|]. split; [discriminate|].
        intros [H|(job & H & _)]; [exfalso; exact (Hno H) | discriminate].
      * destruct job as [|c job]; simpl.
        -- exists false. split; [reflexivity|]. split; [discriminate|].
           intros [H|(job & H & Ho)]; [exfalso; exact (Hno H)|].
           inversion H; subst job. apply contains_spec in Ho. discriminate.
        -- eexists. split; [reflexivity|].
           rewrite (contains_spec "-ch" (String c job)). split.
           ++ intros Ho. right. exists (String c job). split; [reflexivity | exact Ho].
           ++ intros [H|(job' & H & Ho)]; [exfalso; exact (Hno H)|].
              inversion H; subst job'. exact Ho.
    + exists false. split; [reflexivity|]. split; [discriminate|].
      intros [H|(job & H & _)]; [exfalso; exact (Hno H) | discriminate].
Qed.

Lemma classify_classified (p : Program) (m : gmap string json) (id : string) :
  program p = JObj m ->
  m !! "ID" = Some (JStr id) ->
  (forall v, m !! "JobID" = Some v -> v = JNull \/ exists job, v = JStr job) ->
  exists c, classify p = Ok c /\ classified m c.
Proof.
  intros Hp Hid Hjob.
  destruct (is_manual_recording_marker p m id Hp Hid Hjob) as (b & Hb & Hiff).
  unfold classify, is_imported. rewrite Hp. py_simpl.
  destruct (bool_decide (is_Some (m !! "ImportPath"))) eqn:Hi.
  - apply bool_decide_eq_true_1 in Hi.
    exists Imported. split; [reflexivity|]. constructor. exact Hi.
  - apply bool_decide_eq_false_1 in Hi. rewrite Hb.
    destruct b.
    + exists Manual. split; [reflexivity|].
      constructor; [exact Hi | apply Hiff; reflexivity].
    + exists RuleTriggered. split; [reflexivity|].
      constructor; [exact Hi|]. intros H. apply Hiff in H. discriminate.
Qed.

Lemma classified_functional (m : gmap string json) (c c' : classification) :
  classified m c -> classified m c' -> c = c'.
Proof.
  intros H H'. inversion H; inversion H'; subst; try reflexivity; contradiction.
Qed.

(** C2: for a matched program, the report follows a strict precedence.  A
    record with the key "ImportPath" is rendered as an import, whatever its
    rule identifier, its ID and JobID and the rules mapping.  Every line
    that is printed carries the marker of exactly one class, the one the
    precedence import, then manual, then rule gives; and the rules mapping
    has no influence on the line of an imported or manual program.  For a
    record with a string ID and a JobID that is absent, null or a string,
    that class is: imported if the record has the key "ImportPath";
    otherwise manual if "-ch" occurs in its ID or in its JobID; only
    otherwise rule-triggered. *)
Theorem classification_precedence env passes (p : Program) title sn en :
  is_a_match (program p) title sn en = Ok true ->
  (forall m, program p = JObj m -> is_Some (m !! "ImportPath") ->
     classify p = Ok Imported /\
     string_to_print env passes p
     = Ok (heading env p +:+ "is an import:" +:+ nl
           +:+ quoted_line env (file_name p))) /\
  (forall line, string_to_print env passes p = Ok line ->
     forall c, rendered_as env p line c <-> classify p = Ok c) /\
  (forall c, classify p = Ok c -> c <> RuleTriggered ->
     forall passes', string_to_print env passes' p = string_to_print env passes p) /\
  (forall m id,
     program p = JObj m ->
     m !! "ID" = Some (JStr id) ->
     (forall v, m !! "JobID" = Some v -> v = JNull \/ exists job, v = JStr job) ->
     (exists c, classify p = Ok c /\ classified m c) /\
     (forall line, string_to_print env passes p = Ok line ->
        forall c, rendered_as env p line c <-> classified m c) /\
     (forall c, classified m c -> c <> RuleTriggered ->
        forall passes',
          string_to_print env passes' p = string_to_print env passes p)).
Proof.
  intros Hm. destruct (matched_raw p title sn en true Hm) as [raw Hraw].
  assert (Hline : forall line, string_to_print env passes p = Ok line ->
            forall c, rendered_as env p line c <-> classify p = Ok c).
  { intros line Hl c.
    destruct (string_to_print_text _ _ _ _ Hl) as (raw' & text & _ & Hb & ->).
    destruct (branches_marker _ _ _ _ _ Hb) as (c0 & rest & Hc0 & ->).
    unfold rendered_as. split.
    + intros [rest' H]. apply append_inv_head, marker_inj in H. congruence.
    + intros Hc. exists rest. congruence. }
  assert (Hpasses : forall c, classify p = Ok c -> c <> RuleTriggered ->
            forall passes',
              string_to_print env passes' p = string_to_print env passes p).
  { intros c Hc Hne passes'. unfold string_to_print. rewrite Hraw.
    py_simpl. rewrite (branches_without_passes env passes passes' p raw c Hc Hne).
    reflexivity. }
  split; [|split; [exact Hline|split; [exact Hpasses|]]].
  - intros m Hp Hi.
    assert (E : is_imported p = Ok true).
    { unfold is_imported. rewrite Hp. simpl. rewrite bool_decide_eq_true_2; auto. }
    split.
    + unfold classify. rewrite E. reflexivity.
    + unfold string_to_print, branches. rewrite Hraw, E. reflexivity.
  - intros m id Hp Hid Hjob.
    destruct (classify_classified p m id Hp Hid Hjob) as (c0 & Hc0 & Hcl0).
    split; [exists c0; split; assumption|]. split.
    + intros line Hl c. rewrite (Hline line Hl c). split.
      * intros Hc. congruence.
      * intros Hc. rewrite (classified_functional m c c0 Hc Hcl0). exact Hc0.
    + intros c Hc Hne passes'.
      rewrite (classified_functional m c c0 Hc Hcl0) in Hne.
      exact (Hpasses c0 Hc0 Hne passes').
Qed.

Lemma classification_precedence_witness :
  ((forall m, program imported_program = JObj m -> is_Some (m !! "ImportPath") ->
      classify imported_program = Ok Imported /\
      string_to_print offline friends_passes imported_program
      = Ok (heading offline imported_program +:+ "is an import:" +:+ nl
            +:+ quoted_line offline (file_name imported_program))) /\
   (forall line, string_to_print offline friends_passes imported_program = Ok line ->
      forall c, rendered_as offline imported_program line c
                <-> classify imported_program = Ok c) /\
   (forall c, classify imported_program = Ok c -> c <> RuleTriggered ->
      forall passes',
        string_to_print offline passes' imported_program
        = string_to_print offline friends_passes imported_program)) /\
  ((exists c, classify manual_program = Ok c /\ classified manual_fields c) /\
   (forall line, string_to_print offline friends_passes manual_program = Ok line ->
      forall c, rendered_as offline manual_program line c
                <-> classified manual_fields c) /\
   (forall c, classified manual_fields c -> c <> RuleTriggered ->
      forall passes',
        string_to_print offline passes' manual_program
        = string_to_print offline friends_passes manual_program)) /\
  classified manual_fields Manual /\
  string_to_print offline friends_passes manual_program
  = Ok (heading offline manual_program +:+ "is a manual recording." +:+ nl).
Proof.
  split; [|split; [|split]].
  - destruct (classification_precedence offline friends_passes imported_program
                "Friends" None None eq_refl) as (H1 & H2 & H3 & _).
    split; [exact H1|]. split; [exact H2 | exact H3].
  - destruct (classification_precedence offline friends_passes manual_program
                "Friends" None None eq_refl) as (_ & _ & _ & H4).
    apply (H4 manual_fields "12-ch3").
    + reflexivity.
    + reflexivity.
    + intros v H. vm_compute in H. discriminate.
  - apply classified_manual.
    + intros [v H]. vm_compute in H. discriminate.
    + left. exists "12-ch3". split; [reflexivity|].
      exists "12"%string, "3"%string. reflexivity.
  - reflexivity.
Defined.

(** ** The pass of a rule-triggered program *)

Lemma branches_rule env passes p raw k :
  classify p = Ok RuleTriggered ->
  py_key (pass_id p) = Ok k ->
  exists tail : result string,
    branches env passes p raw
    = (rest ← tail; Ok (pass_line (pass_name_shown env passes k) +:+ rest)) /\
    (truthy (file_name p) = true -> tail = Ok (quoted_line env (file_name p))).
Proof.
  unfold branches, classify, passes_get, pass_name_shown, pass_line. py_simpl.
  destruct (is_imported p) as [[|]|]; simpl; try discriminate.
  destruct (is_manual_recording p) as [[|]|]; simpl; try discriminate.
  intros _ ->. simpl.
  set (shown := match passes !! k with
                | Some name => if truthy name then py_str env name
                               else "nothing found!"
                | None => "nothing found!"
                end).
  assert (E : py_str env (if negb (truthy (default JNull (passes !! k)))
                          then JStr "nothing found!"
                          else default JNull (passes !! k)) = shown).
  { unfold shown. destruct (passes !! k) as [name|]; simpl; [|reflexivity].
    destruct (truthy name); reflexivity. }
  rewrite E. clear E.
  destruct (truthy (file_name p)).
  { exists (Ok (quoted_line env (file_name p))). split; [|reflexivity].
    simpl. rewrite !append_assoc. reflexivity. }
  destruct (truthy raw).
  2:{ exists (Ok EmptyString). split; [|discriminate]. simpl.
      rewrite !append_assoc. reflexivity. }
  destruct (py_get raw "startTime") as [st|e]; simpl.
  2:{ exists (Raise e). split; [reflexivity|discriminate]. }
  destruct (truthy st).
  2:{ exists (Ok EmptyString). split; [|discriminate]. simpl.
      rewrite !append_assoc. reflexivity. }
  destruct (convert_utc_time_to_local_time env st) as [t|e]; simpl.
  - exists (Ok (will_be_recorded t)). split; [|discriminate]. simpl.
    rewrite !append_assoc. reflexivity.
  - exists (Raise e). split; [reflexivity|discriminate].
Qed.

(** C3, amended: for a matched program that is neither imported nor
    manual and whose rule identifier can be a dictionary key, the pass name
    printed is the placeholder "nothing found!" if the identifier is absent
    from the rules mapping (in particular when the program has none and the
    mapping has no entry for None) or if the mapping associates an empty
    name with it; otherwise it is the name the mapping associates with the
    identifier.  Only what follows the pass name can raise, and does not
    for a program that has a file name. *)
Theorem pass_name_or_placeholder env passes (p : Program) title sn en k :
  is_a_match (program p) title sn en = Ok true ->
  classify p = Ok RuleTriggered ->
  py_key (pass_id p) = Ok k ->
  exists tail : result string,
    string_to_print env passes p
    = (rest ← tail;
       Ok (heading env p +:+ pass_line (pass_name_shown env passes k) +:+ rest)) /\
    (truthy (file_name p) = true -> tail = Ok (quoted_line env (file_name p))).
Proof.
  intros Hm Hc Hk. destruct (matched_raw p title sn en true Hm) as [raw Hraw].
  destruct (branches_rule env passes p raw k Hc Hk) as (tail & Hb & Ht).
  exists tail. split; [|exact Ht].
  unfold string_to_print. rewrite Hraw. py_simpl. rewrite Hb.
  destruct tail; reflexivity.
Qed.

Lemma pass_name_or_placeholder_witness :
  exists tail : result string,
    string_to_print offline friends_passes best_friends_program
    = (rest ← tail;
       Ok (heading offline best_friends_program
           +:+ pass_line (pass_name_shown offline friends_passes (KStr "r2"))
           +:+ rest)) /\
    (truthy (file_name best_friends_program) = true ->
     tail = Ok (quoted_line offline (file_name best_friends_program))).
Proof.
  apply (pass_name_or_placeholder offline friends_passes best_friends_program
           "Friends" (Some 2) None (KStr "r2")); reflexivity.
Defined.

(** C3 as stated fails for a pass whose name is empty: the mapping has the
    identifier, and the placeholder is printed all the same. *)
Lemma empty_name_gets_placeholder : ~ placeholder_only_when_absent.
Proof.
  intros H.
  destruct (H offline unnamed_pass best_friends_program (KStr "r2") _
              eq_refl eq_refl eq_refl) as [rest Hrest].
  vm_compute in Hrest. discriminate.
Qed.

(** ** Dates and times *)

Import datetime.

Lemma is_leap_parts a b c e :
  0 <= a -> 0 <= b < 4 -> 0 <= c < 25 -> 0 <= e < 4 ->
  _is_leap (400 * a + 100 * b + 4 * c + e + 1)
  = (e =? 3) && (negb (c =? 24) || (b =? 3)).
Proof.
  intros Ha Hb Hc He. unfold _is_leap.
  repeat match goal with
  | |- context [?x =? ?y] => destruct (Z.eqb_spec x y)
  end; simpl; try reflexivity; exfalso;
  Z.div_mod_to_equations; lia.
Qed.

Lemma days_before_year_parts a b c e :
  0 <= a -> 0 <= b < 4 -> 0 <= c < 25 -> 0 <= e < 4 ->
  _days_before_year (400 * a + 100 * b + 4 * c + e + 1)
  = 146097 * a + 36524 * b + 1461 * c + 365 * e.
Proof.
  intros. unfold _days_before_year. Z.div_mod_to_equations. lia.
Qed.

Lemma forallb_seqZ (f : Z -> bool) (lo len x : Z) :
  forallb f (seqZ lo len) = true -> lo <= x < lo + len -> f x = true.
Proof.
  intros H Hx. rewrite forallb_forall in H. apply H.
  apply list_elem_of_In, elem_of_seqZ. exact Hx.
Qed.

Lemma month_day_all (leapyear : bool) :
  forallb (month_day_ok leapyear) (seqZ 0 365) = true.
Proof. destruct leapyear; vm_compute; reflexivity. Qed.

Lemma month_day_spec (leapyear : bool) (n : Z) :
  0 <= n < 365 ->
  let '(m, d) := month_day n leapyear in
  1 <= m <= 12 /\
  1 <= d <= _DAYS_IN_MONTH m + (if (m =? 2) && leapyear then 1 else 0) /\
  _DAYS_BEFORE_MONTH m + (if (2 <? m) && leapyear then 1 else 0) + d = n + 1.
Proof.
  intros Hn.
  pose proof (forallb_seqZ _ 0 365 n (month_day_all leapyear) ltac:(lia)) as H.
  unfold month_day_ok in H. destruct (month_day n leapyear) as [m d].
  rewrite !andb_true_iff in H. destruct H as ((((H1 & H2) & H3) & H4) & H5).
  lia.
Qed.

Lemma ord2ymd_parts (n : Z) :
  _ord2ymd n =
  let n0 := n - 1 in
  let a := n0 / 146097 in
  let r1 := n0 mod 146097 in
  let b := r1 / 36524 in
  let r2 := r1 mod 36524 in
  let c := r2 / 1461 in
  let r3 := r2 mod 1461 in
  let e := r3 / 365 in
  let f := r3 mod 365 in
  if (e =? 4) || (b =? 4) then (400 * a + 100 * b + 4 * c + e, 12, 31)
  else
    let '(m, d) := month_day f ((e =? 3) && (negb (c =? 24) || (b =? 3))) in
    (400 * a + 100 * b + 4 * c + e + 1, m, d).
Proof.
  unfold _ord2ymd, month_day, _DI400Y, _DI100Y, _DI4Y. cbv zeta.
  destruct (_ || _).
  - f_equal. f_equal. lia.
  - match goal with |- context [if ?x <? ?y then _ else _] => destruct (x <? y) end;
      f_equal; f_equal; lia.
Qed.

Lemma ord2ymd_correct (n : Z) :
  1 <= n <= MAXORDINAL ->
  let '(y, m, d) := _ord2ymd n in
  1 <= y <= 9999 /\ 1 <= m <= 12 /\ 1 <= d <= _days_in_month y m
  /\ _ymd2ord y m d = n.
Proof.
  unfold MAXORDINAL. intros Hn. rewrite ord2ymd_parts. cbv zeta.
  pose proof (Z.div_mod (n - 1) 146097 ltac:(lia)) as E1.
  pose proof (Z.mod_pos_bound (n - 1) 146097 ltac:(lia)) as B1.
  set (a := (n - 1) / 146097) in *. set (r1 := (n - 1) mod 146097) in *.
  pose proof (Z.div_mod r1 36524 ltac:(lia)) as E2.
  pose proof (Z.mod_pos_bound r1 36524 ltac:(lia)) as B2.
  set (b := r1 / 36524) in *. set (r2 := r1 mod 36524) in *.
  pose proof (Z.div_mod r2 1461 ltac:(lia)) as E3.
  pose proof (Z.mod_pos_bound r2 1461 ltac:(lia)) as B3.
  set (c := r2 / 1461) in *. set (r3 := r2 mod 1461) in *.
  pose proof (Z.div_mod r3 365 ltac:(lia)) as E4.
  pose proof (Z.mod_pos_bound r3 365 ltac:(lia)) as B4.
  set (e := r3 / 365) in *. set (f := r3 mod 365) in *.
  clearbody a r1 b r2 c r3 e f.
  assert (Ha : 0 <= a <= 24) by lia.
  assert (Hb : 0 <= b <= 4) by lia.
  assert (Hc : 0 <= c <= 24) by lia.
  assert (He : 0 <= e <= 4) by lia.
  destruct ((e =? 4) || (b =? 4)) eqn:Hlast.
  - assert (Hy : exists b' c', 0 <= b' < 4 /\ 0 <= c' < 25
                 /\ (c' <> 24 \/ b' = 3)
                 /\ 400 * a + 100 * b + 4 * c + e
                    = 400 * a + 100 * b' + 4 * c' + 3 + 1
                 /\ n = 146097 * a + 36524 * b' + 1461 * c' + 365 * 3 + 366).
    { apply orb_true_iff in Hlast as [H|H]; apply Z.eqb_eq in H.
      - destruct (Z.eq_dec b 4) as [Hb4|Hb4].
        + exists 3, 24. lia.
        + exists b, c. lia.
      - exists 3, 24. lia. }
    destruct Hy as (b' & c' & Hb' & Hc' & Hleap & -> & Hn').
    unfold _ymd2ord, _days_in_month, _days_before_month.
    rewrite is_leap_parts, days_before_year_parts by lia.
    replace ((3 =? 3) && (negb (c' =? 24) || (b' =? 3))) with true.
    2:{ symmetry. simpl. apply orb_true_iff.
        destruct Hleap as [H|H]; [left|right].
        - apply negb_true_iff, Z.eqb_neq. exact H.
        - apply Z.eqb_eq. exact H. }
    simpl. lia.
  - apply orb_false_iff in Hlast as [He4 Hb4].
    apply Z.eqb_neq in He4. apply Z.eqb_neq in Hb4.
    pose proof (month_day_spec ((e =? 3) && (negb (c =? 24) || (b =? 3))) f
                  ltac:(lia)) as Hmd.
    destruct (month_day f _) as [m d]. destruct Hmd as (Hm & Hd & Hsum).
    unfold _ymd2ord, _days_in_month, _days_before_month.
    rewrite is_leap_parts, days_before_year_parts by lia.
    set (leap := (e =? 3) && (negb (c =? 24) || (b =? 3))) in *.
    repeat split; try lia.
    + destruct ((m =? 2) && leap) eqn:Hf; [|lia].
      apply andb_true_iff in Hf as [Hm2 _]. apply Z.eqb_eq in Hm2. subst m.
      simpl in Hd. lia.
Qed.

Lemma of_instant_correct (i : Z) :
  86400 <= i < 86400 * (MAXORDINAL + 1) ->
  exists local, of_instant i = Ok local /\ valid local /\ instant local = i.
Proof.
  unfold MAXORDINAL. intros Hi. unfold of_instant.
  pose proof (Z.div_mod i 86400 ltac:(lia)) as E.
  pose proof (Z.mod_pos_bound i 86400 ltac:(lia)) as B.
  set (ord := i / 86400) in *. set (s := i mod 86400) in *. clearbody ord s.
  assert (Hord : 1 <= ord <= 3652059) by lia.
  replace ((1 <=? ord) && (ord <=? MAXORDINAL)) with true
    by (symmetry; apply andb_true_iff; unfold MAXORDINAL; lia).
  pose proof (ord2ymd_correct ord Hord) as H.
  destruct (_ord2ymd ord) as [[y m] d]. destruct H as (Hy & Hm & Hd & Ho).
  eexists. split; [reflexivity|].
  unfold valid, instant, toordinal. simpl. rewrite Ho.
  repeat split; try lia; Z.div_mod_to_equations; lia.
Qed.

Lemma weekday_agrees (y m d : Z) :
  1 <= y -> 1 <= m <= 12 ->
  (_ymd2ord y m d) mod 7 = day_of_week y m d.
Proof.
  intros Hy Hm. unfold day_of_week, _ymd2ord, _days_before_year, _days_before_month,
    _is_leap.
  assert (Hcases : m = 1 \/ m = 2 \/ m = 3 \/ m = 4 \/ m = 5 \/ m = 6 \/ m = 7
                   \/ m = 8 \/ m = 9 \/ m = 10 \/ m = 11 \/ m = 12) by lia.
  repeat (destruct Hcases as [->|Hcases]); try subst m; simpl;
    repeat match goal with
      | |- context [?x =? ?y] => destruct (Z.eqb_spec x y)
      end; simpl;
    Z.div_mod_to_equations; lia.
Qed.

Lemma digit_char_ok (d : Z) :
  0 <= d < 10 -> is_digit (digit_char d) = true /\ digit_val (digit_char d) = d.
Proof.
  intros H.
  assert (Hc : d = 0 \/ d = 1 \/ d = 2 \/ d = 3 \/ d = 4 \/ d = 5 \/ d = 6
               \/ d = 7 \/ d = 8 \/ d = 9) by lia.
  repeat (destruct Hc as [->|Hc]); try subst d; split; reflexivity.
Qed.

Lemma span_digits_pad (k : nat) : forall (n : Z) (s : string),
  span_digits (pad k n +:+ s)
  = (digits k n ++ fst (span_digits s), snd (span_digits s)).
Proof.
  induction k as [|k IH]; intros n s.
  - simpl. destruct (span_digits s); reflexivity.
  - cbn [pad digits]. rewrite append_assoc. simpl String.append. rewrite IH.
    cbn [span_digits].
    destruct (digit_char_ok (n mod 10)) as [Hd Hv].
    { apply Z.mod_pos_bound. lia. }
    rewrite Hd, Hv. destruct (span_digits s) as [ds rest]. simpl.
    rewrite <- app_assoc. reflexivity.
Qed.

Lemma number_snoc (ds : list Z) (d : Z) : number (ds ++ [d]) = number ds * 10 + d.
Proof. unfold number. rewrite fold_left_app. reflexivity. Qed.

Lemma number_digits (k : nat) : forall n : Z,
  0 <= n < 10 ^ Z.of_nat k -> number (digits k n) = n.
Proof.
  induction k as [|k IH]; intros n Hn.
  - simpl in *. unfold number. simpl. lia.
  - cbn [digits]. rewrite number_snoc, IH.
    + Z.div_mod_to_equations. lia.
    + rewrite Nat2Z.inj_succ, Z.pow_succ_r in Hn by lia.
      split; [apply Z.div_pos; lia|]. apply Z.div_lt_upper_bound; lia.
Qed.

Lemma length_digits (k : nat) (n : Z) : length (digits k n) = k.
Proof.
  revert n; induction k as [|k IH]; intros n; [reflexivity|].
  cbn [digits]. rewrite length_app, IH. simpl. lia.
Qed.

Lemma field_pad (lo hi : nat) (vmin vmax : Z) (k : nat) (n : Z) (c : ascii) (s : string) :
  (lo <= k <= hi)%nat -> 0 <= n < 10 ^ Z.of_nat k -> vmin <= n <= vmax ->
  is_digit c = false ->
  field lo hi vmin vmax (pad k n +:+ String c s) = Some (n, String c s).
Proof.
  intros Hk Hn Hv Hc. unfold field. rewrite span_digits_pad.
  cbn [span_digits]. rewrite Hc. simpl fst. simpl snd.
  rewrite app_nil_r, length_digits, number_digits by exact Hn.
  replace ((lo <=? k)%nat && (k <=? hi)%nat && (vmin <=? n) && (n <=? vmax)) with true;
    [reflexivity|].
  symmetry. rewrite !andb_true_iff. repeat split.
  - apply Nat.leb_le. lia.
  - apply Nat.leb_le. lia.
  - apply Z.leb_le. lia.
  - apply Z.leb_le. lia.
Qed.

Lemma day_field_pad (d : Z) (s : string) :
  day_field (pad 2 d +:+ s) = field 1 2 1 31 (pad 2 d +:+ s).
Proof.
  cbn [pad]. simpl String.append.
  assert (H : 0 <= (d / 10) mod 10 < 10) by (apply Z.mod_pos_bound; lia).
  set (x := (d / 10) mod 10) in *. clearbody x.
  assert (Hc : x = 0 \/ x = 1 \/ x = 2 \/ x = 3 \/ x = 4 \/ x = 5 \/ x = 6
               \/ x = 7 \/ x = 8 \/ x = 9) by lia.
  repeat (destruct Hc as [->|Hc]); try subst x; reflexivity.
Qed.

Lemma strptime_utc_format (Y m d H M : Z) :
  valid (mk Y m d H M 0) ->
  strptime (utc_format Y m d H M) = Ok (mk Y m d H M 0).
Proof.
  unfold valid. simpl. intros (HY & Hm & Hd & HH & HM & _).
  assert (Hdim : _days_in_month Y m <= 31).
  { unfold _days_in_month, _DAYS_IN_MONTH.
    assert (Hc : m = 1 \/ m = 2 \/ m = 3 \/ m = 4 \/ m = 5 \/ m = 6 \/ m = 7
                 \/ m = 8 \/ m = 9 \/ m = 10 \/ m = 11 \/ m = 12) by lia.
    repeat (destruct Hc as [->|Hc]); try subst m; simpl;
      try destruct (_is_leap Y); lia. }
  unfold strptime, parse_fields.
  change (utc_format Y m d H M) with
    (pad 4 Y +:+ String "-" (pad 2 m +:+ String "-" (pad 2 d +:+ String "T"
       (pad 2 H +:+ String ":" (pad 2 M +:+ String "Z" EmptyString))))).
  rewrite field_pad by (try reflexivity; simpl; lia). cbn [mbind option_bind literal Ascii.eqb Bool.eqb orb].
  rewrite field_pad by (try reflexivity; simpl; lia). cbn [mbind option_bind literal Ascii.eqb Bool.eqb orb].
  rewrite day_field_pad, field_pad by (try reflexivity; simpl; lia). cbn [mbind option_bind literal Ascii.eqb Bool.eqb orb].
  rewrite field_pad by (try reflexivity; simpl; lia). cbn [mbind option_bind literal Ascii.eqb Bool.eqb orb].
  rewrite field_pad by (try reflexivity; simpl; lia). cbn [mbind option_bind literal Ascii.eqb Bool.eqb orb].
  replace ((MINYEAR <=? Y) && (d <=? _days_in_month Y m)) with true; [reflexivity|].
  symmetry. apply andb_true_iff. unfold MINYEAR. split; apply Z.leb_le; lia.
Qed.

Lemma strftime_long_format (dt : t) (zone : string) :
  valid dt -> strftime dt zone = long_format dt zone.
Proof.
  intros (Hy & Hm & _). unfold strftime, long_format. f_equal.
  unfold weekday, toordinal, weekday_name.
  rewrite <- weekday_agrees by lia.
  set (ord := _ymd2ord (year dt) (month dt) (day dt)).
  pose proof (Z.mod_pos_bound ord 7 ltac:(lia)) as B.
  assert (E : (ord + 6) mod 7 = (ord mod 7 + 6) mod 7).
  { rewrite Z.add_mod_idemp_l by lia. reflexivity. }
  rewrite E. set (w := ord mod 7) in *. clearbody w.
  assert (Hc : w = 0 \/ w = 1 \/ w = 2 \/ w = 3 \/ w = 4 \/ w = 5 \/ w = 6) by lia.
  repeat (destruct Hc as [->|Hc]); try subst w; reflexivity.
Qed.

Lemma days_before_year_mono (y y' : Z) :
  y <= y' -> _days_before_year y <= _days_before_year y'.
Proof. intros H. unfold _days_before_year. Z.div_mod_to_equations. lia. Qed.

Lemma ymd2ord_upper (y m d : Z) :
  1 <= m <= 12 -> d <= _days_in_month y m ->
  _ymd2ord y m d <= _days_before_year (y + 1).
Proof.
  intros Hm. unfold _ymd2ord, _days_before_year, _days_before_month,
    _days_in_month, _is_leap.
  assert (Hcases : m = 1 \/ m = 2 \/ m = 3 \/ m = 4 \/ m = 5 \/ m = 6 \/ m = 7
                   \/ m = 8 \/ m = 9 \/ m = 10 \/ m = 11 \/ m = 12) by lia.
  repeat (destruct Hcases as [->|Hcases]); try subst m; simpl;
    repeat match goal with
      | |- context [?x =? ?y] => destruct (Z.eqb_spec x y)
      end; simpl; intros Hd;
    Z.div_mod_to_equations; lia.
Qed.

(** From the year 1000 on *)
Lemma instant_year (dt : t) :
  valid dt -> instant (mk 1000 1 1 0 0 0) <= instant dt -> 1000 <= year dt.
Proof.
  intros (Hy & Hm & Hd & Hh & Hmi & Hs) Hi.
  destruct (Z_lt_le_dec (year dt) 1000) as [Hlt|]; [exfalso|assumption].
  pose proof (ymd2ord_upper (year dt) (month dt) (day dt) Hm ltac:(lia)) as Hu.
  pose proof (days_before_year_mono (year dt + 1) 1000 ltac:(lia)) as Hmono.
  change (_days_before_year 1000) with 364877 in Hmono.
  change (instant (mk 1000 1 1 0 0 0)) with (364878 * 86400) in Hi.
  unfold instant, toordinal in Hi. lia.
Qed.

(** C8, amended: a timestamp in the format "%Y-%m-%dT%H:%MZ" of a valid
    date and time is converted, when the local time falls in the years 1000
    to 9999, to the long format "weekday, month day, year
    hour:minute:second AM/PM zone" of the local date and time, that is of
    the instant shifted by the local offset from UTC, with the weekday and
    month names of that local date.  "2023-06-24T15:00Z" gives a Saturday,
    June 24, 2023 where the local offset is at least -15 hours and less than
    +9 hours. *)
Theorem local_time_format env :
  (forall Y m d H M,
     let utc := mk Y m d H M 0 in
     let local_instant := instant utc + utcoffset env (instant utc) in
     valid utc ->
     instant (mk 1000 1 1 0 0 0) <= local_instant < 86400 * (MAXORDINAL + 1) ->
     exists local,
       valid local /\ 1000 <= year local /\ instant local = local_instant /\
       convert_utc_time_to_local_time env (JStr (utc_format Y m d H M))
       = Ok (long_format local (tzname env (instant utc)))) /\
  (-54000 <= utcoffset env (instant (mk 2023 6 24 15 0 0)) < 32400 ->
   exists rest,
     convert_utc_time_to_local_time env (JStr "2023-06-24T15:00Z")
     = Ok ("Saturday, June 24, 2023 " +:+ rest)).
Proof.
  split.
  - intros Y m d H M utc local_instant Hv Hr.
    assert (Hr' : 86400 <= local_instant < 86400 * (MAXORDINAL + 1)).
    { change (instant (mk 1000 1 1 0 0 0)) with (364878 * 86400) in Hr. lia. }
    destruct (of_instant_correct local_instant Hr') as (local & Ho & Hl & Hi).
    exists local. split; [exact Hl|]. split.
    { apply instant_year; [exact Hl|]. rewrite Hi. apply Hr. }
    split; [exact Hi|].
    unfold convert_utc_time_to_local_time.
    rewrite (strptime_utc_format Y m d H M Hv).
    unfold mbind, result_bind, rbind. fold utc. fold local_instant.
    rewrite Ho. rewrite (strftime_long_format _ _ Hl). reflexivity.
  - intros Hoff. unfold convert_utc_time_to_local_time.
    change (strptime "2023-06-24T15:00Z") with (Ok (mk 2023 6 24 15 0 0)).
    unfold mbind, result_bind, rbind.
    set (utc := instant (mk 2023 6 24 15 0 0)) in *.
    set (off := utcoffset env utc) in *. clearbody off.
    assert (Eutc : utc = 738695 * 86400 + 54000) by reflexivity.
    unfold of_instant.
    assert (Ed : (utc + off) / 86400 = 738695).
    { rewrite Eutc. Z.div_mod_to_equations. lia. }
    rewrite Ed. simpl. eexists. reflexivity.
Qed.

Lemma local_time_format_witness :
  (exists local,
     valid local /\ 1000 <= year local /\
     instant local = instant (mk 2023 6 24 15 0 0) + (-14400) /\
     convert_utc_time_to_local_time (home_server (-14400) "EDT")
       (JStr (utc_format 2023 6 24 15 0))
     = Ok (long_format local "EDT")) /\
  exists rest,
    convert_utc_time_to_local_time (home_server (-14400) "EDT")
      (JStr "2023-06-24T15:00Z")
    = Ok ("Saturday, June 24, 2023 " +:+ rest).
Proof.
  destruct (local_time_format (home_server (-14400) "EDT")) as [General Particular].
  split.
  - apply (General 2023 6 24 15 0).
    + vm_compute. repeat split; first [reflexivity | discriminate].
    + vm_compute. split; first [reflexivity | discriminate].
  - apply Particular. vm_compute. split; first [reflexivity | discriminate].
Defined.

(** C8 as stated fails nine hours or more east of Greenwich, where
    2023-06-24T15:00Z is already Sunday, June 25. *)
Lemma sunday_in_tokyo : ~ saturday_everywhere.
Proof.
  intros H. destruct (H (home_server 32400 "JST")) as [rest Hrest].
  vm_compute in Hrest. discriminate.
Qed.

(** * Further properties of the script *)

(** ** The rules mapping *)

Lemma collect_passes_sound (rules : list json) :
  forall acc passes,
    collect_passes rules acc = Ok passes ->
    Forall (fun r => is_Some (rule_entry r)) rules /\
    forall k, passes !! k = last_name k rules (acc !! k).
Proof.
  induction rules as [|r rules IH]; intros acc passes H.
  - simpl in H. inversion H. split; [constructor | reflexivity].
  - cbn [collect_passes] in H. unfold mbind, result_bind, rbind in H.
    destruct r as [| | | | |m]; simpl in H; try discriminate.
    destruct (m !! "Name") as [name|] eqn:Hn; [|discriminate].
    destruct (m !! "ID") as [id|] eqn:Hi; [|discriminate].
    destruct (py_key id) as [k0|] eqn:Hk; [|discriminate].
    apply IH in H as [Hall Hlook]. split.
    + constructor; [|exact Hall]. simpl. rewrite Hn, Hi, Hk. eexists. reflexivity.
    + intros k. rewrite Hlook. simpl. rewrite Hn, Hi, Hk.
      rewrite lookup_insert. destruct (decide (k0 = k)); reflexivity.
Qed.

Lemma collect_passes_complete (rules : list json) :
  Forall (fun r => is_Some (rule_entry r)) rules ->
  forall acc, exists passes, collect_passes rules acc = Ok passes.
Proof.
  induction 1 as [|r rules [[k name] Hr] _ IH]; intros acc.
  - exists acc. reflexivity.
  - cbn [collect_passes]. unfold mbind, result_bind, rbind.
    destruct r as [| | | | |m]; simpl in Hr; try discriminate.
    simpl. destruct (m !! "Name") as [name'|]; [|discriminate].
    destruct (m !! "ID") as [id|]; [|discriminate].
    destruct (py_key id) as [k0|]; [|discriminate].
    apply IH.
Qed.

(** X1: when the server answers the rules request with a list, [get_passes]
    returns a mapping exactly when every rule is an object with a "Name" and
    an "ID" that can be a dictionary key; the mapping then gives, for every
    identifier, the name of the last rule that has it, and nothing for an
    identifier no rule has. *)
Theorem get_passes_last_rule_wins env (rules : list json) :
  http_get_json env (rules_url env) = Ok (JArr rules) ->
  ((exists passes, outcome (get_passes env) = Ok passes)
   <-> Forall (fun r => is_Some (rule_entry r)) rules) /\
  (forall passes, outcome (get_passes env) = Ok passes ->
     forall k, passes !! k = last_name k rules None).
Proof.
  intros Hget.
  assert (E : outcome (get_passes env) = collect_passes rules ∅).
  { unfold get_passes. fold (rules_url env). py_simpl. rewrite Hget. reflexivity. }
  rewrite E. split; [split|].
  - intros [passes H]. apply (collect_passes_sound _ _ _ H).
  - intros H. apply collect_passes_complete. exact H.
  - intros passes H k.
    destruct (collect_passes_sound _ _ _ H) as [_ Hl]. rewrite Hl, lookup_empty.
    reflexivity.
Qed.

Lemma get_passes_last_rule_wins_witness :
  ((exists passes, outcome (get_passes (rules_server (JArr renamed_rules))) = Ok passes)
   <-> Forall (fun r => is_Some (rule_entry r)) renamed_rules) /\
  (forall passes,
     outcome (get_passes (rules_server (JArr renamed_rules))) = Ok passes ->
     forall k, passes !! k = last_name k renamed_rules None).
Proof.
  apply (get_passes_last_rule_wins (rules_server (JArr renamed_rules)) renamed_rules).
  reflexivity.
Defined.

(** ** Construction of a Program *)

Lemma get_category_listed (m airing : gmap string json) :
  m !! "Airing" = Some (JObj airing) ->
  categories_listed airing ->
  _get_category (JObj m) = Ok (first_category airing).
Proof.
  intros Ha Hc. unfold _get_category, first_category, categories_listed in *.
  py_simpl. rewrite Ha. simpl.
  destruct (airing !! "Categories") as [[| | | |[|c cs]|]|]; simpl;
    try reflexivity; contradiction.
Qed.

Lemma program_fields_aux env (m airing : gmap string json) (t : json) :
  m !! "Airing" = Some (JObj airing) ->
  airing !! "Title" = Some t ->
  categories_listed airing ->
  Program_init env (JObj m) =
  (name ← _get_file_name env (JObj m);
   mret {| program := JObj m;
           category := first_category airing;
           episode_number := default JNull (airing !! "EpisodeNumber");
           file_name := name;
           pass_id := default JNull (m !! "RuleID");
           season_number := default JNull (airing !! "SeasonNumber");
           title := t |}).
Proof.
  intros Ha Ht Hc. unfold Program_init.
  rewrite (get_category_listed m airing Ha Hc), io_bind_lift.
  assert (E1 : (py_item (JObj m) "Airing" ≫= fun a => py_get a "EpisodeNumber")
               = Ok (default JNull (airing !! "EpisodeNumber"))).
  { py_simpl. rewrite Ha. reflexivity. }
  assert (E2 : (py_item (JObj m) "Airing" ≫= fun a => py_get a "SeasonNumber")
               = Ok (default JNull (airing !! "SeasonNumber"))).
  { py_simpl. rewrite Ha. reflexivity. }
  assert (E3 : (py_item (JObj m) "Airing" ≫= fun a => py_item a "Title") = Ok t).
  { py_simpl. rewrite Ha. simpl. rewrite Ht. reflexivity. }
  rewrite E1, E2, E3, io_bind_lift.
  apply io_bind_ext. intros name.
  rewrite !io_bind_lift. reflexivity.
Qed.

(** X2: for a record whose airing has a title and whose categories are
    absent, null or a list, constructing a Program fails only if resolving
    the file name fails, and makes no other request.  The Program keeps the
    record, its title, the first category ("Program" when there is none),
    and None for a season number, episode number or rule identifier that
    the record does not have. *)
Theorem program_fields env (m airing : gmap string json) (t : json) :
  m !! "Airing" = Some (JObj airing) ->
  airing !! "Title" = Some t ->
  categories_listed airing ->
  Program_init env (JObj m) =
  (name ← _get_file_name env (JObj m);
   mret {| program := JObj m;
           category := first_category airing;
           episode_number := default JNull (airing !! "EpisodeNumber");
           file_name := name;
           pass_id := default JNull (m !! "RuleID");
           season_number := default JNull (airing !! "SeasonNumber");
           title := t |}).
Proof. apply program_fields_aux. Qed.

Lemma program_fields_witness :
  Program_init (home_server 0 "UTC") library_file =
  (name ← _get_file_name (home_server 0 "UTC") library_file;
   mret {| program := library_file;
           category := first_category library_airing;
           episode_number := default JNull (library_airing !! "EpisodeNumber");
           file_name := name;
           pass_id := default JNull (library_file_fields !! "RuleID");
           season_number := default JNull (library_airing !! "SeasonNumber");
           title := JStr "Best Friends" |}).
Proof.
  apply (program_fields (home_server 0 "UTC") library_file_fields
           library_airing (JStr "Best Friends")).
  - reflexivity.
  - reflexivity.
  - vm_compute. exact I.
Defined.

(** ** The matching result *)

(** X3: [update_program_list] only appends.  When it returns, the lists
    under the other keys are untouched, the list under its key is the former
    one followed by the Programs of the records that match, in the order of
    the collection, and the dictionary is unchanged when nothing matches: no
    key is created for an empty list. *)
Theorem update_program_list_appends env key title sn en programs
    (m m' : gmap string (list Program)) :
  outcome (update_program_list env m key programs title sn en) = Ok m' ->
  (forall k, k <> key -> m' !! k = m !! k) /\
  exists added,
    section_of m' key = section_of m key ++ added /\
    map program added = List.filter (matches title sn en) programs /\
    (added = [] -> m' = m) /\
    (added <> [] -> m' !! key = Some (section_of m key ++ added)).
Proof.
  intros H. apply update_program_list_outcome in H as (added & Hmap & ->).
  unfold section_of. destruct added as [|p added].
  - split; [reflexivity|]. exists []. rewrite app_nil_r.
    repeat split; try assumption. intros H; contradiction.
  - split.
    + intros k Hk. rewrite lookup_insert_ne by congruence. reflexivity.
    + exists (p :: added). rewrite lookup_insert_eq.
      repeat split; try assumption; try reflexivity. discriminate.
Qed.

Lemma update_program_list_appends_witness :
  (forall k, k <> "library" -> later_matches !! k = earlier_matches !! k) /\
  exists added,
    section_of later_matches "library"
    = section_of earlier_matches "library" ++ added /\
    map program added
    = List.filter (matches "Best" None None) [JObj kept_job_fields; library_file] /\
    (added = [] -> later_matches = earlier_matches) /\
    (added <> [] ->
     later_matches !! "library"
     = Some (section_of earlier_matches "library" ++ added)).
Proof.
  apply (update_program_list_appends (home_server 0 "UTC") "library" "Best"
           None None [JObj kept_job_fields; library_file]
           earlier_matches later_matches).
  reflexivity.
Defined.

Lemma appended_lookup (m : gmap string (list Program)) key added k l :
  match added with
  | [] => m
  | _ :: _ => <[key := default [] (m !! key) ++ added]> m
  end !! k = Some l ->
  (k = key /\ l <> []) \/ m !! k = Some l.
Proof.
  destruct added as [|p added]; [auto|].
  destruct (decide (key = k)) as [<-|Hne].
  - rewrite lookup_insert_eq. intros H. inversion H. left. split; [reflexivity|].
    destruct (default [] (m !! key)); discriminate.
  - rewrite lookup_insert_ne by exact Hne. auto.
Qed.

Lemma appended_section (m : gmap string (list Program)) key added :
  section_of match added with
             | [] => m
             | _ :: _ => <[key := default [] (m !! key) ++ added]> m
             end key
  = section_of m key ++ added.
Proof.
  unfold section_of. destruct added as [|p added].
  - rewrite app_nil_r. reflexivity.
  - rewrite lookup_insert_eq. reflexivity.
Qed.

Lemma appended_other (m : gmap string (list Program)) key added k :
  k <> key ->
  section_of match added with
             | [] => m
             | _ :: _ => <[key := default [] (m !! key) ++ added]> m
             end k
  = section_of m k.
Proof.
  intros Hne. unfold section_of. destruct added as [|p added]; [reflexivity|].
  rewrite lookup_insert_ne by congruence. reflexivity.
Qed.

Lemma matching_programs_keys env title sn en
    (programs : gmap string (list Program)) :
  outcome (get_matching_programs env title sn en) = Ok programs ->
  forall key l, programs !! key = Some l ->
    l <> [] /\ (key = "scheduled" \/ key = "library").
Proof.
  intros H. unfold get_matching_programs in H.
  apply io_bind_outcome in H as (scheduled & Hs & H).
  apply io_bind_outcome in H as (m1 & H1 & H).
  apply io_bind_outcome in H as (library & Hl & H).
  apply update_program_list_outcome in H1 as (a1 & Hmap1 & ->).
  apply update_program_list_outcome in H as (a2 & Hmap2 & ->).
  intros key l Hk.
  apply appended_lookup in Hk as [[-> Hl']|Hk]; [auto|].
  apply appended_lookup in Hk as [[-> Hl']|Hk]; [auto|].
  rewrite lookup_empty in Hk. discriminate.
Qed.

(** X4: the dictionary [get_matching_programs] returns has no key other
    than "scheduled" and "library" and holds no empty list; its two lists
    are the Programs of the scheduled recordings and of the library files
    that match, in the order the server lists them. *)
Theorem matching_programs_shape env title sn en
    (programs : gmap string (list Program)) :
  outcome (get_matching_programs env title sn en) = Ok programs ->
  exists scheduled library,
    outcome (get_scheduled_recordings env) = Ok scheduled /\
    outcome (get_library_programs env) = Ok library /\
    map program (section_of programs "scheduled")
    = List.filter (matches title sn en) scheduled /\
    map program (section_of programs "library")
    = List.filter (matches title sn en) library /\
    (forall key l, programs !! key = Some l ->
       l <> [] /\ (key = "scheduled" \/ key = "library")).
Proof.
  intros H. unfold get_matching_programs in H.
  apply io_bind_outcome in H as (scheduled & Hs & H).
  apply io_bind_outcome in H as (m1 & H1 & H).
  apply io_bind_outcome in H as (library & Hl & H).
  exists scheduled, library. split; [exact Hs|]. split; [exact Hl|].
  apply update_program_list_outcome in H1 as (a1 & Hmap1 & ->).
  apply update_program_list_outcome in H as (a2 & Hmap2 & ->).
  rewrite <- Hmap1, <- Hmap2. split; [|split].
  - rewrite appended_other by discriminate. rewrite appended_section.
    unfold section_of. rewrite lookup_empty. reflexivity.
  - rewrite appended_section, appended_other by discriminate.
    unfold section_of. rewrite lookup_empty. reflexivity.
  - intros key l Hk.
    apply appended_lookup in Hk as [[-> Hl']|Hk]; [auto|].
    apply appended_lookup in Hk as [[-> Hl']|Hk]; [auto|].
    rewrite lookup_empty in Hk. discriminate.
Qed.

Lemma matching_programs_shape_witness :
  exists scheduled library,
    outcome (get_scheduled_recordings (home_server 0 "UTC")) = Ok scheduled /\
    outcome (get_library_programs (home_server 0 "UTC")) = Ok library /\
    map program (section_of both_sections "scheduled")
    = List.filter (matches "Friends" None None) scheduled /\
    map program (section_of both_sections "library")
    = List.filter (matches "Friends" None None) library /\
    (forall key l, both_sections !! key = Some l ->
       l <> [] /\ (key = "scheduled" \/ key = "library")).
Proof.
  apply (matching_programs_shape (home_server 0 "UTC") "Friends" None None).
  reflexivity.
Defined.

(** ** What is printed and what is requested *)

Lemma display_passes_trace env passes (programs : list Program) :
  trace (display_passes env passes programs)
  = map Print (rendered env passes programs).
Proof.
  induction programs as [|p l IH]; [reflexivity|].
  rewrite display_passes_cons. simpl rendered.
  destruct (string_to_print env passes p); simpl; [rewrite IH|]; reflexivity.
Qed.

(** X5: [display_passes] prints one line per program, in order, up to the
    first program whose rendering raises, and nothing after it; it ends
    without an exception exactly when every program is rendered. *)
Theorem display_passes_prints env passes (programs : list Program) :
  trace (display_passes env passes programs)
  = map Print (rendered env passes programs) /\
  (outcome (display_passes env passes programs) = Ok tt
   <-> Forall (fun p => exists line, string_to_print env passes p = Ok line)
              programs) /\
  (outcome (display_passes env passes programs) = Ok tt ->
   length (trace (display_passes env passes programs)) = length programs).
Proof.
  induction programs as [|p l (IHt & IHo & IHl)].
  - repeat split; try reflexivity. constructor.
  - rewrite display_passes_cons. simpl rendered.
    destruct (string_to_print env passes p) as [line|e] eqn:Hp; simpl.
    + rewrite IHt. split; [reflexivity|]. split.
      * rewrite IHo. split.
        -- intros H. constructor; [exists line; exact Hp | exact H].
        -- intros H. inversion H. assumption.
      * intros H. rewrite <- IHt. rewrite (IHl H). reflexivity.
    + split; [reflexivity|]. split; [|discriminate]. split; [discriminate|].
      intros H. inversion H as [|? ? [line Hline] ?]. congruence.
Qed.

Lemma get_file_name_gets env (program : json) :
  Forall is_get (trace (_get_file_name env program)).
Proof.
  unfold _get_file_name. py_simpl.
  destruct (py_get program "FileID") as [file_id|]; simpl; [|constructor].
  destruct (truthy file_id); simpl; [constructor|].
  destruct (py_item program "ID") as [id|]; simpl; [|constructor].
  destruct (py_in "-" id) as [[|]|]; simpl; try constructor.
  destruct (http_get_json env _) as [media_info|]; simpl; repeat constructor.
Qed.

Lemma io_bind_trace {A B} (m : io A) (k : A -> io B) (P : event -> Prop) :
  Forall P (trace m) -> (forall a, Forall P (trace (k a))) ->
  Forall P (trace (m ≫= k)).
Proof.
  intros Hm Hk. destruct m as [t [a|e]]; py_simpl; [|exact Hm].
  apply Forall_app. split; [exact Hm | apply Hk].
Qed.

Lemma lift_trace {A} (r : result A) (P : event -> Prop) : Forall P (trace (lift r)).
Proof. constructor. Qed.

Lemma Program_init_gets env (program_json : json) :
  Forall is_get (trace (Program_init env program_json)).
Proof.
  unfold Program_init.
  apply io_bind_trace; [apply lift_trace|]. intros category0.
  apply io_bind_trace; [apply lift_trace|]. intros episode0.
  apply io_bind_trace; [apply get_file_name_gets|]. intros name0.
  apply io_bind_trace; [apply lift_trace|]. intros pass0.
  apply io_bind_trace; [apply lift_trace|]. intros season0.
  apply io_bind_trace; [apply lift_trace|]. intros title0.
  constructor.
Qed.

Lemma update_program_list_gets env key title sn en programs :
  forall m, Forall is_get (trace (update_program_list env m key programs title sn en)).
Proof.
  induction programs as [|p ps IH]; intros m; [constructor|].
  rewrite update_program_list_cons.
  destruct (is_a_match p title sn en) as [[|]|e]; [|apply IH|constructor].
  apply io_bind_trace; [apply Program_init_gets | intros P; apply IH].
Qed.

Lemma matching_only_requests_aux env title sn en :
  Forall is_get (trace (get_matching_programs env title sn en)) /\
  exists more, trace (get_matching_programs env title sn en)
               = Get (jobs_url env) :: more.
Proof.
  split.
  - unfold get_matching_programs.
    apply io_bind_trace.
    { rewrite get_scheduled_recordings_trace. repeat constructor. }
    intros scheduled. apply io_bind_trace; [apply update_program_list_gets|].
    intros m. apply io_bind_trace.
    { rewrite get_library_programs_trace. repeat constructor. }
    intros library. apply update_program_list_gets.
  - unfold get_matching_programs.
    pose proof (get_scheduled_recordings_trace env) as Ht.
    destruct (get_scheduled_recordings env) as [t [scheduled|e]];
      simpl in Ht; subst t; py_simpl; eexists; reflexivity.
Qed.

(** X6: the matching step prints nothing: every event of
    [get_matching_programs] is a request to the server, the first one for
    the jobs. *)
Theorem matching_only_requests env title sn en :
  Forall is_get (trace (get_matching_programs env title sn en)) /\
  exists more, trace (get_matching_programs env title sn en)
               = Get (jobs_url env) :: more.
Proof. apply matching_only_requests_aux. Qed.

Lemma display_passes_only_prints env passes programs :
  Forall is_print (trace (display_passes env passes programs)).
Proof.
  rewrite display_passes_trace.
  apply Forall_map. apply Forall_forall. intros; exact I.
Qed.

(** X7: the report makes no request to the server: every event of
    [show_passes_for_every_program] is a printed line, whatever the
    programs and the mapping. *)
Theorem report_only_prints env passes (programs : gmap string (list Program)) :
  Forall is_print (trace (show_passes_for_every_program env passes programs)).
Proof.
  unfold show_passes_for_every_program.
  apply io_bind_trace.
  - destruct (list_truthy (programs !! "scheduled")); [|constructor].
    apply io_bind_trace; [repeat constructor|]. intros _.
    apply io_bind_trace; [apply display_passes_only_prints|]. intros _.
    repeat constructor.
  - intros _. destruct (list_truthy (programs !! "library")); [|constructor].
    apply io_bind_trace; [repeat constructor|]. intros _.
    apply io_bind_trace; [apply display_passes_only_prints|]. intros _.
    repeat constructor.
Qed.

Lemma display_passes_report_lines env passes programs :
  Forall report_line (trace (display_passes env passes programs)).
Proof.
  apply Forall_forall. intros e He. apply list_elem_of_In in He.
  apply display_passes_items in He as [rest ->].
  exists (" - " +:+ rest). split; [reflexivity|]. right. right. eexists. reflexivity.
Qed.

Lemma banner_report_lines :
  Forall report_line scheduled_banner /\ Forall report_line library_banner.
Proof.
  split; repeat constructor;
    (eexists; split; [reflexivity|]);
    first [ left; reflexivity | right; left; eexists; reflexivity ].
Qed.

Lemma show_passes_report_lines env passes (programs : gmap string (list Program)) :
  Forall report_line (trace (show_passes_for_every_program env passes programs)).
Proof.
  assert (Hempty : Forall report_line (trace (print EmptyString))).
  { repeat constructor. exists EmptyString. split; [reflexivity|]. left. reflexivity. }
  destruct banner_report_lines as [Hs Hl].
  unfold show_passes_for_every_program.
  apply io_bind_trace.
  - destruct (list_truthy (programs !! "scheduled")); [|constructor].
    apply io_bind_trace; [exact Hs|]. intros _.
    apply io_bind_trace; [apply display_passes_report_lines|]. intros _.
    exact Hempty.
  - intros _. destruct (list_truthy (programs !! "library")); [|constructor].
    apply io_bind_trace; [exact Hl|]. intros _.
    apply io_bind_trace; [apply display_passes_report_lines|]. intros _.
    exact Hempty.
Qed.

(** X8: in a run where the rules and the matching succeed, the line "no
    matches found." is printed if and only if the matching result is the
    empty dictionary, that is if and only if no scheduled recording and no
    library file matched. *)
Theorem no_match_message env title sn en passes
    (programs : gmap string (list Program)) :
  outcome (get_passes env) = Ok passes ->
  outcome (get_matching_programs env title sn en) = Ok programs ->
  (In no_matches_line (trace (main env title sn en false)) <-> programs = ∅) /\
  (programs = ∅ <->
   section_of programs "scheduled" = [] /\ section_of programs "library" = []).
Proof.
  intros Hp Hm.
  assert (Ep : get_passes env = IO [Get (rules_url env)] (Ok passes))
    by (apply io_eq; [apply get_passes_trace | exact Hp]).
  pose proof (proj1 (matching_only_requests_aux env title sn en)) as Hgets.
  split.
  - assert (Et : trace (main env title sn en false)
                 = preamble env ++ [Get (rules_url env)]
                   ++ trace (get_matching_programs env title sn en)
                   ++ (if bool_decide (programs = ∅)
                       then [no_matches_line; Print EmptyString] else [])
                   ++ trace (show_passes_for_every_program env passes programs)).
    { unfold main. rewrite Ep.
      destruct (get_matching_programs env title sn en) as [tm om].
      simpl in Hm. subst om.
      unfold display_server_url, preamble, no_matches_line.
      unfold mbind, io_bind_inst, io_bind, print, mret, io_ret. simpl.
      destruct (bool_decide (programs = ∅)); simpl;
        rewrite <- ?app_assoc; reflexivity. }
    rewrite Et, !in_app_iff.
    pose proof (show_passes_report_lines env passes programs) as Hshow.
    rewrite Forall_forall in Hshow, Hgets.
    split.
    + intros [H|[H|[H|[H|H]]]].
      * exfalso. unfold preamble, no_matches_line in H. simpl in H.
        destruct H as [H|[H|[H|[H|[]]]]]; discriminate.
      * exfalso. destruct H as [H|[]]. discriminate.
      * exfalso. apply list_elem_of_In, Hgets in H. exact H.
      * destruct (bool_decide (programs = ∅)) eqn:Hb;
          [apply bool_decide_eq_true_1 in Hb; exact Hb | destruct H].
      * exfalso. apply list_elem_of_In, Hshow in H as (s & Hs & Hcases).
        inversion Hs; subst s.
        destruct Hcases as [Hc|[[r Hc]|[r Hc]]]; discriminate.
    + intros ->. right. right. right. left.
      rewrite bool_decide_eq_true_2 by reflexivity. left. reflexivity.
  - split.
    + intros ->. unfold section_of. rewrite !lookup_empty. split; reflexivity.
    + intros [Hs Hl]. apply map_eq. intros key. rewrite lookup_empty.
      destruct (programs !! key) as [l|] eqn:Hk; [exfalso|reflexivity].
      destruct (matching_programs_keys env title sn en programs Hm key l Hk)
        as [Hne [->| ->]]; unfold section_of in *; rewrite Hk in *; simpl in *;
        congruence.
Qed.

Lemma no_match_message_witness :
  (In no_matches_line (trace (main (home_server 0 "UTC") "Seinfeld" None None false))
   <-> (∅ : gmap string (list Program)) = ∅) /\
  ((∅ : gmap string (list Program)) = ∅ <->
   section_of (∅ : gmap string (list Program)) "scheduled" = []
   /\ section_of (∅ : gmap string (list Program)) "library" = []).
Proof.
  apply (no_match_message (home_server 0 "UTC") "Seinfeld" None None friends_passes ∅);
    reflexivity.
Defined.

(** ** Jobs without a "Skipped" field *)

Lemma not_skipped_objects (jobs : list json) :
  Forall is_object jobs ->
  not_skipped jobs =
  if forallb (fun job => bool_decide (is_Some (skipped_value job))) jobs
  then Ok (List.filter kept jobs)
  else Raise KeyError.
Proof.
  induction 1 as [|job jobs Hobj _ IH]; [reflexivity|].
  destruct job as [| | | | |m]; try contradiction.
  cbn [not_skipped forallb List.filter]. unfold kept at 1. simpl skipped_value.
  unfold mbind, result_bind, rbind. simpl py_item.
  destruct (m !! "Skipped") as [v|]; simpl; [|reflexivity].
  rewrite ?bool_decide_eq_true_2 by eauto. simpl. rewrite IH.
  destruct (forallb _ jobs); [|reflexivity].
  destruct (truthy v); reflexivity.
Qed.

(** X9: when the server answers the jobs request with a list of objects,
    [get_scheduled_recordings] raises KeyError as soon as one job has no
    "Skipped" field, whatever the other jobs are; otherwise it returns, in
    order, the jobs whose "Skipped" Python holds false: false, but also
    null, 0 or an empty string. *)
Theorem scheduled_recordings_need_skipped env (jobs : list json) :
  http_get_json env (jobs_url env) = Ok (JArr jobs) ->
  Forall is_object jobs ->
  (Exists (fun job => skipped_value job = None) jobs ->
   get_scheduled_recordings env = IO [Get (jobs_url env)] (Raise KeyError)) /\
  (Forall (fun job => is_Some (skipped_value job)) jobs ->
   get_scheduled_recordings env
   = IO [Get (jobs_url env)] (Ok (List.filter kept jobs))).
Proof.
  intros Hget Hobj.
  assert (E : get_scheduled_recordings env
              = IO [Get (jobs_url env)] (not_skipped jobs)).
  { apply io_eq; [apply get_scheduled_recordings_trace|].
    unfold get_scheduled_recordings. fold (jobs_url env). py_simpl.
    rewrite Hget. reflexivity. }
  rewrite E, (not_skipped_objects jobs Hobj). split.
  - intros Hex.
    replace (forallb _ jobs) with false; [reflexivity|].
    symmetry. apply not_true_is_false. intros Hall.
    rewrite forallb_forall in Hall. apply Exists_exists in Hex as (job & Hin & Hnone).
    apply list_elem_of_In, Hall, bool_decide_eq_true_1 in Hin.
    rewrite Hnone in Hin. destruct Hin as [? ?]. discriminate.
  - intros Hall.
    replace (forallb _ jobs) with true; [reflexivity|].
    symmetry. apply forallb_forall. intros job Hin.
    apply bool_decide_eq_true_2.
    rewrite Forall_forall in Hall. apply Hall, list_elem_of_In. exact Hin.
Qed.

Lemma scheduled_recordings_need_skipped_witness :
  (Exists (fun job => skipped_value job = None) [unmarked_job; friends_job] ->
   get_scheduled_recordings (jobs_server (JArr [unmarked_job; friends_job]))
   = IO [Get (jobs_url (jobs_server (JArr [unmarked_job; friends_job])))]
        (Raise KeyError)) /\
  (Forall (fun job => is_Some (skipped_value job)) [unmarked_job; friends_job] ->
   get_scheduled_recordings (jobs_server (JArr [unmarked_job; friends_job]))
   = IO [Get (jobs_url (jobs_server (JArr [unmarked_job; friends_job])))]
        (Ok (List.filter kept [unmarked_job; friends_job]))).
Proof.
  apply (scheduled_recordings_need_skipped
           (jobs_server (JArr [unmarked_job; friends_job]))
           [unmarked_job; friends_job]).
  - reflexivity.
  - repeat constructor.
Defined.

(** ** Failures end the run *)

(** X10: a failed request ends the script with the exception of the
    request.  If the rules request fails, nothing is requested after it; if
    it succeeds and the jobs request fails, the files are not requested.  In
    both cases nothing is printed after the preamble. *)
Theorem failed_request_ends_run env title sn en (e : exn) :
  (http_get_json env (rules_url env) = Raise e ->
   main env title sn en false
   = IO (preamble env ++ [Get (rules_url env)]) (Raise e)) /\
  (forall passes,
     outcome (get_passes env) = Ok passes ->
     http_get_json env (jobs_url env) = Raise e ->
     main env title sn en false
     = IO (preamble env ++ [Get (rules_url env); Get (jobs_url env)]) (Raise e)).
Proof.
  split.
  - intros H. unfold main, get_passes, display_server_url, preamble.
    fold (rules_url env). py_simpl. rewrite H. reflexivity.
  - intros passes Hp H.
    assert (Ep : get_passes env = IO [Get (rules_url env)] (Ok passes))
      by (apply io_eq; [apply get_passes_trace | exact Hp]).
    unfold main. rewrite Ep.
    unfold get_matching_programs, get_scheduled_recordings, display_server_url,
      preamble.
    fold (jobs_url env). py_simpl. rewrite H. reflexivity.
Qed.

Lemma failed_request_ends_run_witness :
  main offline "Friends" None None false
  = IO (preamble offline ++ [Get (rules_url offline)]) (Raise RequestException).
Proof.
  apply (failed_request_ends_run offline "Friends" None None RequestException).
  reflexivity.
Defined.

(** X11: one record on which the filter raises makes the whole scan of
    its collection fail, wherever the record is in the collection and
    whatever matched before it; a record without an "Airing" is such a
    record, whatever the title looked for. *)
Theorem malformed_record_aborts env key title sn en (programs : list json)
    (r : gmap string json) :
  In (JObj r) programs ->
  r !! "Airing" = None ->
  forall m : gmap string (list Program),
    exists e, outcome (update_program_list env m key programs title sn en) = Raise e.
Proof.
  intros Hin Hr.
  assert (Hraise : is_a_match (JObj r) title sn en = Raise KeyError).
  { unfold is_a_match. py_simpl. rewrite Hr. reflexivity. }
  induction programs as [|p ps IH]; [destruct Hin|]. intros m.
  rewrite update_program_list_cons.
  destruct Hin as [->|Hin].
  - rewrite Hraise. exists KeyError. reflexivity.
  - destruct (is_a_match p title sn en) as [[|]|e]; [|apply IH; exact Hin|eauto].
    destruct (Program_init env p) as [tr [P|e]]; py_simpl; [|eauto].
    apply IH. exact Hin.
Qed.

Lemma malformed_record_aborts_witness :
  exists e,
    outcome (update_program_list offline ∅ "library" [friends_job; bare_record]
               "Seinfeld" None None) = Raise e.
Proof.
  apply (malformed_record_aborts offline "library" "Seinfeld" None None
           [friends_job; bare_record] {[ "ID" := JStr "81" ]}).
  - right. left. reflexivity.
  - reflexivity.
Defined.

(** ** Narrowing a query *)

Lemma occurs_in_trans (a b c : string) :
  occurs_in a b -> occurs_in b c -> occurs_in a c.
Proof.
  intros (pre & post & ->) (pre' & post' & ->).
  exists (pre' +:+ pre), (post +:+ post').
  rewrite !append_assoc. reflexivity.
Qed.

(** X12: a query can only be narrowed.  On a record whose airing has a
    string title, a record that matches a title also matches every title
    that occurs in it, and a record that matches with a season and an
    episode number also matches with the season alone and with no number. *)
Theorem narrower_query_matches_less program airing t title title' sn en :
  titled program airing t ->
  is_a_match program title sn en = Ok true ->
  (occurs_in title' title -> is_a_match program title' sn en = Ok true) /\
  is_a_match program title sn None = Ok true /\
  is_a_match program title None en = Ok true.
Proof.
  intros Ht H. rewrite (is_a_match_titled _ _ _ _ _ _ Ht) in H.
  injection H as Hb.
  apply andb_true_iff in Hb as [Hc Hrest].
  split; [|split].
  - intros Ho. rewrite (is_a_match_titled _ _ _ _ _ _ Ht). f_equal.
    cbv zeta. rewrite Hrest, andb_true_r.
    apply contains_spec. apply contains_spec in Hc.
    exact (occurs_in_trans _ _ _ Ho Hc).
  - rewrite (is_a_match_titled _ _ _ _ _ _ Ht), Hc. f_equal.
    cbv zeta in *. simpl arg_truthy at 2. simpl andb at 1.
    destruct (arg_truthy sn); [|reflexivity].
    apply andb_true_iff in Hrest as [Hs _]. rewrite Hs. reflexivity.
  - rewrite (is_a_match_titled _ _ _ _ _ _ Ht), Hc. reflexivity.
Qed.

Lemma narrower_query_matches_less_witness :
  (occurs_in "Friend" "Best Friends" ->
   is_a_match library_file "Friend" (Some 2) None = Ok true) /\
  is_a_match library_file "Best Friends" (Some 2) None = Ok true /\
  is_a_match library_file "Best Friends" None None = Ok true.
Proof.
  apply (narrower_query_matches_less library_file library_airing "Best Friends"
           "Best Friends" "Friend" (Some 2) None).
  - exists library_file_fields. repeat split; reflexivity.
  - reflexivity.
Defined.

(** ** A recording without a start time *)

(** X13: for a program without a file name whose guide data ("Raw") is a
    non-empty object without "startTime", the two branches differ.  A manual
    recording cannot be rendered: KeyError is raised and nothing is printed
    for it.  A rule-triggered program is rendered with its pass and without
    a time. *)
Theorem recording_without_start_time env passes (p : Program)
    (m airing raw : gmap string json) :
  program p = JObj m ->
  m !! "Airing" = Some (JObj airing) ->
  airing !! "Raw" = Some (JObj raw) ->
  raw <> ∅ ->
  raw !! "startTime" = None ->
  truthy (file_name p) = false ->
  (classify p = Ok Manual -> string_to_print env passes p = Raise KeyError) /\
  (forall k, classify p = Ok RuleTriggered -> py_key (pass_id p) = Ok k ->
     string_to_print env passes p
     = Ok (heading env p +:+ pass_line (pass_name_shown env passes k))).
Proof.
  intros Hp Ha Hraw Hne Hst Hfile.
  assert (Eraw : get_raw_data p = Ok (JObj raw)).
  { unfold get_raw_data. rewrite Hp. py_simpl. rewrite Ha. simpl.
    rewrite bool_decide_eq_false_2.
    - simpl. rewrite Hraw. reflexivity.
    - intros ->. rewrite lookup_empty in Hraw. discriminate. }
  assert (Etruthy : truthy (JObj raw) = true).
  { simpl. rewrite bool_decide_eq_false_2 by exact Hne. reflexivity. }
  unfold string_to_print. rewrite Eraw. split.
  - unfold classify, branches. py_simpl.
    destruct (is_imported p) as [[|]|]; simpl; try discriminate.
    destruct (is_manual_recording p) as [[|]|]; simpl; try discriminate.
    intros _. rewrite Hfile.
    rewrite bool_decide_eq_false_2 by exact Hne. simpl. rewrite Hst. reflexivity.
  - intros k Hc Hk.
    destruct (branches_rule env passes p (JObj raw) k Hc Hk) as (tail & Hb & _).
    revert Hb. unfold branches, classify in *. py_simpl.
    destruct (is_imported p) as [[|]|]; simpl in *; try discriminate.
    destruct (is_manual_recording p) as [[|]|]; simpl in *; try discriminate.
    unfold passes_get, pass_name_shown, pass_line. py_simpl. rewrite Hk. simpl.
    rewrite Hfile. rewrite bool_decide_eq_false_2 by exact Hne. simpl.
    rewrite Hst. simpl. intros _.
    destruct (passes !! k) as [name|]; simpl.
    + destruct (truthy name); simpl; rewrite ?append_assoc; reflexivity.
    + rewrite ?append_assoc. reflexivity.
Qed.

Lemma recording_without_start_time_witness :
  (classify untimed_manual = Ok Manual ->
   string_to_print offline friends_passes untimed_manual = Raise KeyError) /\
  (forall k, classify untimed_manual = Ok RuleTriggered ->
     py_key (pass_id untimed_manual) = Ok k ->
     string_to_print offline friends_passes untimed_manual
     = Ok (heading offline untimed_manual
           +:+ pass_line (pass_name_shown offline friends_passes k))).
Proof.
  apply (recording_without_start_time offline friends_passes untimed_manual
           (<["ID" := JStr "12-ch3"]> {[ "Airing" := JObj untimed_airing ]})
           untimed_airing {[ "endTime" := JStr "2023-06-24T15:30Z" ]}).
  - reflexivity.
  - reflexivity.
  - reflexivity.
  - intros H. apply (f_equal (fun m : gmap string json => m !! "endTime")) in H.
    vm_compute in H. discriminate.
  - reflexivity.
  - reflexivity.
Defined.

(** ** Timestamps the parser takes *)








(** ** Days and dates *)

Lemma ymd2ord_lower (y m d : Z) :
  1 <= m <= 12 -> 1 <= d -> _days_before_year y < _ymd2ord y m d.
Proof.
  intros Hm Hd. unfold _ymd2ord, _days_before_month.
  assert (0 <= _DAYS_BEFORE_MONTH m).
  { assert (Hc : m = 1 \/ m = 2 \/ m = 3 \/ m = 4 \/ m = 5 \/ m = 6 \/ m = 7
                 \/ m = 8 \/ m = 9 \/ m = 10 \/ m = 11 \/ m = 12) by lia.
    repeat (destruct Hc as [->|Hc]); try subst m; simpl; lia. }
  destruct (_ && _); lia.
Qed.

Lemma month_day_inj (y m d m' d' : Z) :
  1 <= m <= 12 -> 1 <= d <= _days_in_month y m ->
  1 <= m' <= 12 -> 1 <= d' <= _days_in_month y m' ->
  _days_before_month y m + d = _days_before_month y m' + d' ->
  m = m' /\ d = d'.
Proof.
  intros Hm Hd Hm' Hd'. unfold _days_before_month, _days_in_month in *.
  assert (Hc : m = 1 \/ m = 2 \/ m = 3 \/ m = 4 \/ m = 5 \/ m = 6 \/ m = 7
               \/ m = 8 \/ m = 9 \/ m = 10 \/ m = 11 \/ m = 12) by lia.
  assert (Hc' : m' = 1 \/ m' = 2 \/ m' = 3 \/ m' = 4 \/ m' = 5 \/ m' = 6 \/ m' = 7
                \/ m' = 8 \/ m' = 9 \/ m' = 10 \/ m' = 11 \/ m' = 12) by lia.
  destruct (_is_leap y);
    repeat (destruct Hc as [->|Hc]); try subst m;
    repeat (destruct Hc' as [->|Hc']); try subst m';
    simpl in *; lia.
Qed.

Lemma ymd2ord_inj (y m d y' m' d' : Z) :
  valid_date y m d -> valid_date y' m' d' ->
  _ymd2ord y m d = _ymd2ord y' m' d' ->
  y = y' /\ m = m' /\ d = d'.
Proof.
  intros (Hy & Hm & Hd) (Hy' & Hm' & Hd') E.
  assert (Eyear : y = y').
  { destruct (Z.lt_trichotomy y y') as [Hlt|[Heq|Hgt]]; [exfalso|exact Heq|exfalso].
    - pose proof (ymd2ord_upper y m d Hm ltac:(lia)).
      pose proof (days_before_year_mono (y + 1) y' ltac:(lia)).
      pose proof (ymd2ord_lower y' m' d' Hm' ltac:(lia)). lia.
    - pose proof (ymd2ord_upper y' m' d' Hm' ltac:(lia)).
      pose proof (days_before_year_mono (y' + 1) y ltac:(lia)).
      pose proof (ymd2ord_lower y m d Hm ltac:(lia)). lia. }
  subst y'. split; [reflexivity|].
  unfold _ymd2ord in E. apply (month_day_inj y); try assumption. lia.
Qed.

Lemma ymd2ord_range (y m d : Z) :
  valid_date y m d -> 1 <= _ymd2ord y m d <= MAXORDINAL.
Proof.
  intros (Hy & Hm & Hd).
  pose proof (ymd2ord_lower y m d Hm ltac:(lia)).
  pose proof (ymd2ord_upper y m d Hm ltac:(lia)).
  pose proof (days_before_year_mono 1 y ltac:(lia)) as H1.
  pose proof (days_before_year_mono (y + 1) 10000 ltac:(lia)) as H2.
  change (_days_before_year 1) with 0 in H1.
  change (_days_before_year 10000) with 3652059 in H2.
  unfold MAXORDINAL. lia.
Qed.

Lemma ord2ymd_ymd2ord (y m d : Z) :
  valid_date y m d -> _ord2ymd (_ymd2ord y m d) = (y, m, d).
Proof.
  intros Hv. pose proof (ord2ymd_correct _ (ymd2ord_range y m d Hv)) as H.
  destruct (_ord2ymd (_ymd2ord y m d)) as [[y' m'] d'].
  destruct H as (Hy & Hm & Hd & E).
  destruct (ymd2ord_inj y' m' d' y m d) as (-> & -> & ->);
    [unfold valid_date; tauto | exact Hv | exact E | reflexivity].
Qed.

(** The day of a date and the date of a day are inverse to each other over
    the whole calendar. *)
Lemma dates_and_days_round_trip :
  (forall y m d, valid_date y m d ->
     1 <= _ymd2ord y m d <= MAXORDINAL /\ _ord2ymd (_ymd2ord y m d) = (y, m, d)) /\
  (forall n, 1 <= n <= MAXORDINAL ->
     let '(y, m, d) := _ord2ymd n in valid_date y m d /\ _ymd2ord y m d = n).
Proof.
  split.
  - intros y m d Hv. split; [apply ymd2ord_range | apply ord2ymd_ymd2ord]; exact Hv.
  - intros n Hn. pose proof (ord2ymd_correct n Hn) as H.
    destruct (_ord2ymd n) as [[y m] d]. unfold valid_date. tauto.
Qed.

(** X15: a timestamp of a valid date from the year 1000 on is shown on its
    own date, at the time of day shifted by the local offset, whenever the
    shifted time stays within the day; in a zone at UTC itself the date and
    time shown are those of the timestamp. *)
Theorem same_day_conversion env Y m d H M :
  let utc := mk Y m d H M 0 in
  let s := H * 3600 + M * 60 + utcoffset env (instant utc) in
  valid utc -> 1000 <= Y -> 0 <= s < 86400 ->
  convert_utc_time_to_local_time env (JStr (utc_format Y m d H M))
  = Ok (long_format (at_second utc s) (tzname env (instant utc))) /\
  (utcoffset env (instant utc) = 0 -> at_second utc s = utc).
Proof.
  intros utc s Hv HY Hs.
  assert (Hdate : valid_date Y m d).
  { destruct Hv as (H1 & H2 & H3 & _). repeat split; simpl in *; lia. }
  split.
  - unfold convert_utc_time_to_local_time.
    rewrite (strptime_utc_format Y m d H M Hv).
    unfold mbind, result_bind, rbind. fold utc.
    assert (Ei : instant utc + utcoffset env (instant utc)
                 = _ymd2ord Y m d * 86400 + s).
    { unfold s, instant, toordinal, utc. simpl. lia. }
    rewrite Ei. unfold of_instant.
    replace ((_ymd2ord Y m d * 86400 + s) / 86400) with (_ymd2ord Y m d)
      by (Z.div_mod_to_equations; lia).
    replace ((_ymd2ord Y m d * 86400 + s) mod 86400) with s
      by (Z.div_mod_to_equations; lia).
    pose proof (ymd2ord_range Y m d Hdate) as Hr.
    replace ((1 <=? _ymd2ord Y m d) && (_ymd2ord Y m d <=? MAXORDINAL)) with true
      by (symmetry; apply andb_true_iff; split; apply Z.leb_le; lia).
    rewrite (ord2ymd_ymd2ord Y m d Hdate).
    rewrite strftime_long_format; [reflexivity|].
    destruct Hdate as (H1 & H2 & H3). unfold valid. simpl.
    repeat split; try lia; Z.div_mod_to_equations; lia.
  - intros H0. unfold at_second, utc, s. simpl. rewrite H0.
    destruct Hv as (_ & _ & _ & Hh & Hm & _). simpl in Hh, Hm.
    f_equal; Z.div_mod_to_equations; lia.
Qed.

Lemma same_day_conversion_witness :
  convert_utc_time_to_local_time (home_server (-14400) "EDT")
    (JStr (utc_format 2023 6 24 15 0))
  = Ok (long_format (at_second (mk 2023 6 24 15 0 0) (15 * 3600 + 0 * 60 + -14400))
          "EDT") /\
  (-14400 = 0 ->
   at_second (mk 2023 6 24 15 0 0) (15 * 3600 + 0 * 60 + -14400)
   = mk 2023 6 24 15 0 0).
Proof.
  apply (same_day_conversion (home_server (-14400) "EDT") 2023 6 24 15 0).
  - vm_compute. repeat split; first [reflexivity | discriminate].
  - vm_compute. discriminate.
  - vm_compute. split; first [reflexivity | discriminate].
Defined.

(** ** The numbers asked for, in the report *)

(** X16: when a season and an episode number other than zero are asked for
    and a record of a series (first category "Episode", "Show" or "Series")
    whose numbers are JSON integers matches, the heading of the Program
    built from it shows the category, the title and exactly the numbers
    asked for, as S<season>E<episode>. *)
Theorem heading_shows_requested_numbers env (m airing : gmap string json)
    (c t title : string) (cs : list json) (s e s' e' : Z) (p : Program) :
  m !! "Airing" = Some (JObj airing) ->
  airing !! "Title" = Some (JStr t) ->
  airing !! "Categories" = Some (JArr (JStr c :: cs)) ->
  c = "Episode" \/ c = "Show" \/ c = "Series" ->
  airing !! "SeasonNumber" = Some (JNum s') ->
  airing !! "EpisodeNumber" = Some (JNum e') ->
  s <> 0 -> e <> 0 ->
  is_a_match (JObj m) title (Some s) (Some e) = Ok true ->
  outcome (Program_init env (JObj m)) = Ok p ->
  s' = s /\ e' = e /\
  heading env p
  = " - " +:+ c +:+ " " +:+ dquote +:+ t +:+ dquote +:+ " S" +:+ str_of_int s
    +:+ "E" +:+ str_of_int e +:+ " ".
Proof.
  intros Ha Ht Hc Hseries Hs He Hs0 He0 Hm Hp.
  assert (Htitled : titled (JObj m) airing t) by (exists m; auto).
  rewrite (is_a_match_titled _ _ _ _ _ _ Htitled) in Hm.
  injection Hm as Hm. apply andb_true_iff in Hm as [_ Hm].
  assert (Ts : negb (s =? 0) = true)
    by (apply negb_true_iff, Z.eqb_neq; exact Hs0).
  assert (Te : negb (e =? 0) = true)
    by (apply negb_true_iff, Z.eqb_neq; exact He0).
  unfold arg_truthy, arg_eq in Hm. cbv zeta in Hm.
  rewrite Ts, Te, Hs, He in Hm. simpl in Hm.
  rewrite !andb_true_iff in Hm. destruct Hm as [[_ Es] [_ Ee]].
  apply Z.eqb_eq in Es. apply Z.eqb_eq in Ee. subst s' e'.
  split; [reflexivity|]. split; [reflexivity|].
  assert (Hlisted : categories_listed airing)
    by (unfold categories_listed; rewrite Hc; exact I).
  rewrite (program_fields_aux env m airing (JStr t) Ha Ht Hlisted) in Hp.
  apply io_bind_outcome in Hp as (name & _ & Hp).
  py_simpl. injection Hp as <-.
  unfold heading, first_category. simpl. rewrite Hc, Hs, He. simpl.
  rewrite Ts, Te.
  destruct Hseries as [->|[->| ->]]; simpl; rewrite ?append_assoc; reflexivity.
Qed.

Lemma heading_shows_requested_numbers_witness :
  2 = 2 /\ 5 = 5 /\
  heading offline
    {| program := JObj episode_job_fields; category := JStr "Episode";
       episode_number := JNum 5; file_name := JNull; pass_id := JNull;
       season_number := JNum 2; title := JStr "Friends" |}
  = " - " +:+ "Episode" +:+ " " +:+ dquote +:+ "Friends" +:+ dquote +:+ " S"
    +:+ str_of_int 2 +:+ "E" +:+ str_of_int 5 +:+ " ".
Proof.
  apply (heading_shows_requested_numbers offline episode_job_fields episode_airing
           "Episode" "Friends" "Friend" [] 2 5 2 5);
    first [reflexivity | discriminate | (left; reflexivity)].
Defined.
